(** * hedm.midas.io: the MIDAS [Grains.csv] reader

    A shallow embedding of [src/hedm/midas/io.py] (classes
    [LatticeParameters_], [Grain_] and [Grains]) together with the fragment
    of the Python runtime and of numpy that the module calls.

    - Python [str] is [string]; every character is a code point below 256.
    - Python [int] is [Z]; Python [float] and numpy [float64] are the
      primitive binary64 [float].
    - A raised exception is the [Raise] branch of [result]; code that
      mutates [self] is a state transformer that returns the state reached
      when the exception left the method.
    - [pandas.read_table] is not part of the module: [Grains.parse] takes
      it as a parameter. *)

From Stdlib Require Import ZArith List String Ascii Bool Lia DecimalString.
From Stdlib Require Import Floats.PrimFloat Floats.FloatOps Floats.SpecFloat.
Import ListNotations.

Local Open Scope string_scope.
Local Open Scope Z_scope.

(** ** Exceptions and results *)

Inductive exn : Type :=
| IOError (msg : string)
| ValueError
| TypeError
| KeyError (key : string)
| IndexError
| OverflowError
| AttributeError
| LibraryError (name : string).

Inductive result (A : Type) : Type :=
| Ok (a : A)
| Raise (e : exn).

Arguments Ok {A} a.
Arguments Raise {A} e.

Definition rbind {A B : Type} (r : result A) (k : A -> result B) : result B :=
  match r with
  | Ok a => k a
  | Raise e => Raise e
  end.

Declare Scope py_scope.
Delimit Scope py_scope with py.

Notation "x <- c ;; k" := (rbind c (fun x => k))
  (at level 100, c at next level, right associativity) : py_scope.

Fixpoint mapM {A B : Type} (f : A -> result B) (l : list A) : result (list B) :=
  match l with
  | [] => Ok []
  | x :: t =>
      match f x with
      | Raise e => Raise e
      | Ok y =>
          match mapM f t with
          | Raise e => Raise e
          | Ok ys => Ok (y :: ys)
          end
      end
  end.

(** ** Python values that reach the module *)

Inductive pyval : Type :=
| PNone
| PInt (z : Z)
| PFloat (f : float)
| PStr (s : string).

(** ** [str] methods *)

Module Str.

Definition code (c : ascii) : Z := Z.of_N (N_of_ascii c).

(** [str.isspace] on one character: TAB, LF, VT, FF, CR, the separators
    0x1c to 0x1f, space, NEL and the no-break space. *)
Definition isspace (c : ascii) : bool :=
  let n := code c in
  ((9 <=? n) && (n <=? 13)) || ((28 <=? n) && (n <=? 32))
  || (n =? 133) || (n =? 160).

Definition is_empty (s : string) : bool :=
  match s with
  | EmptyString => true
  | String _ _ => false
  end.

Fixpoint lstrip (s : string) : string :=
  match s with
  | EmptyString => EmptyString
  | String c r => if isspace c then lstrip r else s
  end.

Fixpoint rstrip (s : string) : string :=
  match s with
  | EmptyString => EmptyString
  | String c r =>
      let r' := rstrip r in
      if isspace c && is_empty r' then EmptyString else String c r'
  end.

(** [s.strip()] *)
Definition strip (s : string) : string := rstrip (lstrip s).

Definition snoc (s : string) (c : ascii) : string :=
  (s ++ String c EmptyString)%string.

(** [s.split()]: the maximal runs of characters that are not white space. *)
Fixpoint split_ws_from (cur : string) (s : string) : list string :=
  match s with
  | EmptyString => if is_empty cur then [] else [cur]
  | String c r =>
      if isspace c
      then (if is_empty cur then split_ws_from EmptyString r
            else cur :: split_ws_from EmptyString r)
      else split_ws_from (snoc cur c) r
  end.

Definition split (s : string) : list string := split_ws_from EmptyString s.

(** [s.split(sep)] for a separator of one character: one more piece than
    there are separators, empty pieces kept. *)
Fixpoint split_on_from (sep : ascii) (cur : string) (s : string) : list string :=
  match s with
  | EmptyString => [cur]
  | String c r =>
      if Ascii.eqb c sep then cur :: split_on_from sep EmptyString r
      else split_on_from sep (snoc cur c) r
  end.

Definition split_on (sep : ascii) (s : string) : list string :=
  split_on_from sep EmptyString s.

(** [s.replace(old, new)] for [old] of one character. *)
Fixpoint replace (old : ascii) (new : string) (s : string) : string :=
  match s with
  | EmptyString => EmptyString
  | String c r =>
      if Ascii.eqb c old then (new ++ replace old new r)%string
      else String c (replace old new r)
  end.

(** [StringIO.readlines()]: lines end after each LF, the terminator is
    kept, a last line without terminator is a line when it is not empty. *)
Fixpoint readlines_from (cur : string) (s : string) : list string :=
  match s with
  | EmptyString => if is_empty cur then [] else [cur]
  | String c r =>
      if Ascii.eqb c "010"%char then snoc cur c :: readlines_from EmptyString r
      else readlines_from (snoc cur c) r
  end.

Definition readlines (s : string) : list string := readlines_from EmptyString s.

Definition lower (c : ascii) : ascii :=
  let n := code c in
  if (65 <=? n) && (n <=? 90) then ascii_of_N (Z.to_N (n + 32)) else c.

Fixpoint lowercase (s : string) : string :=
  match s with
  | EmptyString => EmptyString
  | String c r => String (lower c) (lowercase r)
  end.

(** [str(n)] for an [int]. *)
Definition of_int (z : Z) : string := NilZero.string_of_int (Z.to_int z).

End Str.

(** ** Number conversions: [int(x)] and [float(x)] *)

Module Num.

Definition digit_of (c : ascii) : option Z :=
  let n := Str.code c in
  if (48 <=? n) && (n <=? 57) then Some (n - 48) else None.

(** The rest of a digit part: digits, each optionally preceded by one
    underscore.  Returns the accumulated value, the number of digits read
    and the unread suffix. *)
Fixpoint digits_tail (acc : Z) (n : Z) (s : string) : Z * Z * string :=
  match s with
  | EmptyString => (acc, n, s)
  | String c r =>
      match digit_of c with
      | Some d => digits_tail (10 * acc + d) (n + 1) r
      | None =>
          if Ascii.eqb c "_"%char then
            match r with
            | String c2 r2 =>
                match digit_of c2 with
                | Some d => digits_tail (10 * acc + d) (n + 1) r2
                | None => (acc, n, s)
                end
            | EmptyString => (acc, n, s)
            end
          else (acc, n, s)
      end
  end.

(** A digit part starts with a digit. *)
Definition digitpart (acc : Z) (s : string) : option (Z * Z * string) :=
  match s with
  | String c r =>
      match digit_of c with
      | Some d => Some (digits_tail (10 * acc + d) 1 r)
      | None => None
      end
  | EmptyString => None
  end.

(** An optional sign: [true] for minus. *)
Definition sign (s : string) : bool * string :=
  match s with
  | String c r =>
      if Ascii.eqb c "-"%char then (true, r)
      else if Ascii.eqb c "+"%char then (false, r)
      else (false, s)
  | EmptyString => (false, s)
  end.

(** The white space that [int()] and [float()] skip around a number: the
    ASCII white space TAB, LF, VT, FF, CR and space, and NEL and the
    no-break space, which are turned into spaces first.  The separators
    0x1c to 0x1f are not skipped, although [str.isspace] holds of them. *)
Definition isspace (c : ascii) : bool :=
  let n := Str.code c in
  ((9 <=? n) && (n <=? 13)) || (n =? 32) || (n =? 133) || (n =? 160).

Fixpoint lstrip (s : string) : string :=
  match s with
  | EmptyString => EmptyString
  | String c r => if isspace c then lstrip r else s
  end.

Fixpoint rstrip (s : string) : string :=
  match s with
  | EmptyString => EmptyString
  | String c r =>
      let r' := rstrip r in
      if isspace c && Str.is_empty r' then EmptyString else String c r'
  end.

Definition strip (s : string) : string := rstrip (lstrip s).

(** The longest digit string that [int()] converts
    ([sys.int_max_str_digits]). *)
Definition max_str_digits : Z := 4300.

(** [int(s)] for a [str], base ten. *)
Definition int_of_str (s : string) : result Z :=
  let (neg, r) := sign (strip s) in
  match digitpart 0 r with
  | Some (v, n, EmptyString) =>
      if max_str_digits <? n then Raise ValueError
      else Ok (if neg then - v else v)
  | _ => Raise ValueError
  end.

(** The binary64 number nearest to [z] (ties to even, overflow to
    infinity). *)
Definition float_of_Z (z : Z) : float :=
  SF2Prim (binary_normalize prec emax z 0 false).

(** The binary64 number nearest to [num / den], for [0 < num] and
    [0 < den]: the quotient is computed with at least 64 significant bits
    and a sticky bit, then rounded once. *)
Definition float_of_ratio (neg : bool) (num den : Z) : float :=
  let s := Z.max 0 (64 + Z.log2 den - Z.log2 num) in
  let n := num * 2 ^ s in
  let q := n / den in
  let m := 2 * q + (if n mod den =? 0 then 0 else 1) in
  SF2Prim (binary_normalize prec emax (if neg then - m else m) (- s - 1) neg).

(** The binary64 number nearest to [(-1)^neg * m * 10^e]. *)
Definition float_of_decimal (neg : bool) (m e : Z) : float :=
  if m =? 0 then (if neg then neg_zero else zero)
  else if 0 <=? e
       then SF2Prim (binary_normalize prec emax
                       ((if neg then - m else m) * 10 ^ e) 0 neg)
       else float_of_ratio neg m (10 ^ (- e)).

(** The exponent part of a float literal, empty or [e], a sign and a
    digit part up to the end of the string. *)
Definition exponent (s : string) : option Z :=
  match s with
  | EmptyString => Some 0
  | String c r =>
      if Ascii.eqb (Str.lower c) "e"%char then
        let (neg, r') := sign r in
        match digitpart 0 r' with
        | Some (v, _, EmptyString) => Some (if neg then - v else v)
        | _ => None
        end
      else None
  end.

(** The fraction and exponent after the integer digits [m] ([nd] of
    them): the mantissa as an integer and the power of ten. *)
Definition fraction (m nd : Z) (s : string) : option (Z * Z) :=
  match s with
  | String "."%char r =>
      match digitpart m r with
      | Some (m', nf, r') =>
          match exponent r' with
          | Some e => Some (m', e - nf)
          | None => None
          end
      | None =>
          if nd =? 0 then None
          else match exponent r with
               | Some e => Some (m, e)
               | None => None
               end
      end
  | _ =>
      if nd =? 0 then None
      else match exponent s with
           | Some e => Some (m, e)
           | None => None
           end
  end.

Definition decimal (s : string) : option (Z * Z) :=
  match digitpart 0 s with
  | Some (m, nd, r) => fraction m nd r
  | None => fraction 0 0 s
  end.

(** [float(s)] for a [str]. *)
Definition float_of_str (s : string) : result float :=
  let (neg, r) := sign (strip s) in
  let name := Str.lowercase r in
  if (name =? "inf")%string || (name =? "infinity")%string
  then Ok (if neg then neg_infinity else infinity)
  else if (name =? "nan")%string then Ok nan
  else match decimal r with
       | Some (m, e) => Ok (float_of_decimal neg m e)
       | None => Raise ValueError
       end.

(** [float(x)] *)
Definition float_ (x : pyval) : result float :=
  match x with
  | PFloat f => Ok f
  | PInt z =>
      let f := float_of_Z z in
      if is_infinity f then Raise OverflowError else Ok f
  | PStr s => float_of_str s
  | PNone => Raise TypeError
  end.

(** [int(f)] for a float: truncation towards zero. *)
Definition int_of_float (f : float) : result Z :=
  match Prim2SF f with
  | S754_nan => Raise ValueError
  | S754_infinity _ => Raise OverflowError
  | S754_zero _ => Ok 0
  | S754_finite s m e =>
      let a := if 0 <=? e then Zpos m * 2 ^ e else Zpos m / 2 ^ (- e) in
      Ok (if s then - a else a)
  end.

(** [f == n] for a float and an int: the comparison is exact, the int is
    not rounded. *)
Definition float_eq_int (f : float) (n : Z) : bool :=
  match Prim2SF f with
  | S754_zero _ => n =? 0
  | S754_finite s m e =>
      let v := if s then Zneg m else Zpos m in
      if 0 <=? e then n =? v * 2 ^ e else n * 2 ^ (- e) =? v
  | S754_infinity _ | S754_nan => false
  end.

(** [int(x)] *)
Definition int_ (x : pyval) : result Z :=
  match x with
  | PInt z => Ok z
  | PFloat f => int_of_float f
  | PStr s => int_of_str s
  | PNone => Raise TypeError
  end.

End Num.

(** ** The fragment of numpy *)

Module Np.

(** Default tolerances of [numpy.isclose]: [rtol=1e-05], [atol=1e-08]. *)
Definition rtol : float := Eval vm_compute in Num.float_of_decimal false 1 (-5).
Definition atol : float := Eval vm_compute in Num.float_of_decimal false 1 (-8).

(** [isclose] on two binary64 numbers: within tolerance when both are
    finite, equal otherwise (so never for a NaN). *)
Definition isclose_f64 (x y : float) : bool :=
  if is_finite x && is_finite y
  then (abs (x - y) <=? atol + rtol * abs y)%float
  else (x =? y)%float.

(** The conversion of a scalar operand to [float64]; [None] and [str]
    operands are refused with a [TypeError], an [int] beyond the range of
    [float64] with an [OverflowError]. *)
Definition as_float64 (v : pyval) : result float :=
  match v with
  | PFloat f => Ok f
  | PInt z =>
      let f := Num.float_of_Z z in
      if is_infinity f then Raise OverflowError else Ok f
  | PNone | PStr _ => Raise TypeError
  end.

(** [numpy.isclose(a, b)] on scalars. *)
Definition isclose (a b : pyval) : result bool :=
  (x <- as_float64 a ;;
   y <- as_float64 b ;;
   Ok (isclose_f64 x y))%py.

(** An array: its shape and its elements in C order. *)
Record ndarray : Type := mk_ndarray { shape : list nat; data : list pyval }.

(** [a.reshape(dims)]: the same elements under a new shape of the same
    size. *)
Definition reshape (dims : list nat) (a : ndarray) : result ndarray :=
  if Nat.eqb (fold_right Nat.mul 1%nat dims) (List.length (data a))
  then Ok (mk_ndarray dims (data a))
  else Raise ValueError.

(** [a[i][j]] for a two-dimensional array. *)
Definition item2 (a : ndarray) (i j : nat) : option pyval :=
  match shape a with
  | [rows; cols] =>
      if Nat.ltb i rows && Nat.ltb j cols
      then nth_error (data a) (i * cols + j)
      else None
  | _ => None
  end.

(** [a[i]] for a one-dimensional array. *)
Definition item1 (a : ndarray) (i : nat) : option pyval :=
  match shape a with
  | [n] => if Nat.ltb i n then nth_error (data a) i else None
  | _ => None
  end.

Fixpoint isclose_all (xs ys : list float) : bool :=
  match xs, ys with
  | x :: xs', y :: ys' => isclose_f64 x y && isclose_all xs' ys'
  | _, _ => true
  end.

(** Broadcasting of two shapes, given last dimension first: dimensions
    are matched from the last one, equal dimensions stay, a dimension 1
    or a missing dimension takes the size of the other. *)
Fixpoint broadcast_dims (xs ys : list nat) : option (list nat) :=
  match xs, ys with
  | [], _ => Some ys
  | _, [] => Some xs
  | x :: xs', y :: ys' =>
      match broadcast_dims xs' ys' with
      | None => None
      | Some r =>
          if Nat.eqb x y then Some (x :: r)
          else if Nat.eqb x 1 then Some (y :: r)
          else if Nat.eqb y 1 then Some (x :: r)
          else None
      end
  end.

Definition broadcast_shape (s1 s2 : list nat) : option (list nat) :=
  option_map (@rev nat) (broadcast_dims (rev s1) (rev s2)).

(** A shape with dimensions 1 in front, up to [rank] dimensions. *)
Definition pad_shape (rank : nat) (dims : list nat) : list nat :=
  (List.repeat 1%nat (rank - List.length dims) ++ dims)%list.

Fixpoint chunks {A : Type} (count size : nat) (l : list A) : list (list A) :=
  match count with
  | O => []
  | S count' => firstn size l :: chunks count' size (skipn size l)
  end.

(** The elements, in C order, of an array of shape [dims] broadcast to the
    shape [out] of the same rank. *)
Fixpoint stretch {A : Type} (dims out : list nat) (elements : list A) : list A :=
  match dims, out with
  | d :: ds, o :: os =>
      let parts :=
        List.concat
          (map (stretch ds os) (chunks d (fold_right Nat.mul 1%nat ds) elements)) in
      if Nat.eqb d o then parts else List.concat (List.repeat parts o)
  | _, _ => elements
  end.

(** [numpy.allclose(a, b)] on two attributes that hold an array or
    [None]: the two arrays are broadcast to a common shape and compared
    element by element; shapes that do not broadcast give a
    [ValueError]. *)
Definition allclose (a b : option ndarray) : result bool :=
  match a, b with
  | Some x, Some y =>
      (xs <- mapM as_float64 (data x) ;;
       ys <- mapM as_float64 (data y) ;;
       match broadcast_shape (shape x) (shape y) with
       | Some out =>
           let rank := List.length out in
           Ok (isclose_all (stretch (pad_shape rank (shape x)) out xs)
                           (stretch (pad_shape rank (shape y)) out ys))
       | None => Raise ValueError
       end)%py
  | _, _ => Raise TypeError
  end.

End Np.

(** [x and y] on comparison results: [y] is not evaluated, so cannot
    raise, when [x] is false. *)
Definition and_then (x y : result bool) : result bool :=
  match x with
  | Ok true => y
  | Ok false => Ok false
  | Raise e => Raise e
  end.

Infix "&&&" := and_then (at level 40, left associativity) : py_scope.

(** [x == y] on scalars: numbers by value (an [int] beside a [float]
    exactly), [None] with itself, strings character by character. *)
Definition py_eq (x y : pyval) : bool :=
  match x, y with
  | PNone, PNone => true
  | PInt m, PInt n => m =? n
  | PInt m, PFloat g => Num.float_eq_int g m
  | PFloat f, PInt n => Num.float_eq_int f n
  | PFloat f, PFloat g => (f =? g)%float
  | PStr s, PStr t => (s =? t)%string
  | _, _ => false
  end.

(** ** Code that mutates [self] *)

Definition M (S A : Type) : Type := S -> S * result A.

Definition mbind {S A B : Type} (c : M S A) (k : A -> M S B) : M S B :=
  fun s =>
    match c s with
    | (s', Ok a) => k a s'
    | (s', Raise e) => (s', Raise e)
    end.

(** A computation that does not touch [self]. *)
Definition lift {S A : Type} (r : result A) : M S A := fun s => (s, r).

(** [self.field = expr]: nothing is stored when [expr] raises. *)
Definition assign {S A : Type} (r : result A) (store : A -> S -> S) : M S unit :=
  fun s =>
    match r with
    | Ok v => (store v s, Ok tt)
    | Raise e => (s, Raise e)
    end.

Notation "x <~ c ;; k" := (mbind c (fun x => k))
  (at level 100, c at next level, right associativity) : py_scope.
Notation "c >> k" := (mbind c (fun _ => k))
  (at level 100, right associativity) : py_scope.

(** ** class [LatticeParameters_] *)

Module LatticeParameters_.

(** The instance attributes [a_] ... [gamma_]; [None] for an attribute
    that the instance does not have. *)
Record t : Type := mk {
  a_ : option float;
  b_ : option float;
  c_ : option float;
  alpha_ : option float;
  beta_ : option float;
  gamma_ : option float
}.

Definition empty : t := mk None None None None None None.

(** [getattr(self, name, default)] *)
Definition getattr (slot : option float) (default : pyval) : pyval :=
  match slot with
  | Some v => PFloat v
  | None => default
  end.

(** The properties. *)
Definition a (self : t) : pyval := getattr (a_ self) PNone.
Definition b (self : t) : pyval := getattr (b_ self) (a self).
Definition c (self : t) : pyval := getattr (c_ self) (a self).
Definition alpha (self : t) : pyval := getattr (alpha_ self) PNone.
Definition beta (self : t) : pyval := getattr (beta_ self) (alpha self).
Definition gamma (self : t) : pyval := getattr (gamma_ self) (alpha self).

(** The setters: [self.x_ = float(value)]. *)
Definition set_a (value : pyval) (self : t) : result t :=
  (f <- Num.float_ value ;;
   Ok (mk (Some f) (b_ self) (c_ self) (alpha_ self) (beta_ self) (gamma_ self)))%py.
Definition set_b (value : pyval) (self : t) : result t :=
  (f <- Num.float_ value ;;
   Ok (mk (a_ self) (Some f) (c_ self) (alpha_ self) (beta_ self) (gamma_ self)))%py.
Definition set_c (value : pyval) (self : t) : result t :=
  (f <- Num.float_ value ;;
   Ok (mk (a_ self) (b_ self) (Some f) (alpha_ self) (beta_ self) (gamma_ self)))%py.
Definition set_alpha (value : pyval) (self : t) : result t :=
  (f <- Num.float_ value ;;
   Ok (mk (a_ self) (b_ self) (c_ self) (Some f) (beta_ self) (gamma_ self)))%py.
Definition set_beta (value : pyval) (self : t) : result t :=
  (f <- Num.float_ value ;;
   Ok (mk (a_ self) (b_ self) (c_ self) (alpha_ self) (Some f) (gamma_ self)))%py.
Definition set_gamma (value : pyval) (self : t) : result t :=
  (f <- Num.float_ value ;;
   Ok (mk (a_ self) (b_ self) (c_ self) (alpha_ self) (beta_ self) (Some f)))%py.

(** Keyword arguments: the names are distinct. *)
Definition kwargs : Type := list (string * pyval).

Fixpoint lookup (key : string) (kwds : kwargs) : option pyval :=
  match kwds with
  | [] => None
  | (k, v) :: rest => if (k =? key)%string then Some v else lookup key rest
  end.

(** [if key in kwds: self.key = kwds[key]] *)
Definition init_field (key : string) (set : pyval -> t -> result t)
    (kwds : kwargs) (self : t) : result t :=
  match lookup key kwds with
  | Some v => set v self
  | None => Ok self
  end.

(** The constructor, called with keyword arguments [kwds]. *)
Definition init (kwds : kwargs) : result t :=
  (s1 <- init_field "a" set_a kwds empty ;;
   s2 <- init_field "b" set_b kwds s1 ;;
   s3 <- init_field "c" set_c kwds s2 ;;
   s4 <- init_field "alpha" set_alpha kwds s3 ;;
   s5 <- init_field "beta" set_beta kwds s4 ;;
   init_field "gamma" set_gamma kwds s5)%py.

(** [self == rhs] *)
Definition eq (self rhs : t) : result bool :=
  (Np.isclose (a self) (a rhs) &&&
   Np.isclose (b self) (b rhs) &&&
   Np.isclose (c self) (c rhs) &&&
   Np.isclose (alpha self) (alpha rhs) &&&
   Np.isclose (beta self) (beta rhs) &&&
   Np.isclose (gamma self) (gamma rhs))%py.

End LatticeParameters_.

(** ** A row of the table: [pandas.Series] *)

(** The labels of a row are the column names, which are distinct.  pandas
    gives the values of a row one dtype: in a row of dtype float64 every
    value is a [PFloat], in a row of dtype int64 a [PInt]; a row that holds
    a [PStr] or mixes the constructors is of dtype object. *)
Definition Series : Type := list (string * pyval).

(** [series[key]] *)
Fixpoint getitem (key : string) (series : Series) : result pyval :=
  match series with
  | [] => Raise (KeyError key)
  | (k, v) :: rest => if (k =? key)%string then Ok v else getitem key rest
  end.

(** The labels of [keys] that the row does not have. *)
Definition missing_labels (keys : list string) (series : Series) : list string :=
  filter (fun k => match getitem k series with Ok _ => false | Raise _ => true end)
         keys.

Fixpoint join_labels (labels : list string) : string :=
  match labels with
  | [] => EmptyString
  | [k] => ("'" ++ k ++ "'")%string
  | k :: rest => ("'" ++ k ++ "', " ++ join_labels rest)%string
  end.

(** The message of the [KeyError] of a lookup by a list of labels: the
    list of the missing labels, worded differently when every label is
    missing (pandas then prints the whole index of labels, here on one
    line). *)
Definition not_in_index (keys missing : list string) : string :=
  if Nat.eqb (List.length missing) (List.length keys)
  then ("None of [Index([" ++ join_labels missing
        ++ "], dtype='object')] are in the [index]")%string
  else ("[" ++ join_labels missing ++ "] not in index")%string.

(** [series[[k1, ..., kn]].values]: a one-dimensional array. *)
Definition getitems_values (keys : list string) (series : Series) : result Np.ndarray :=
  match mapM (fun k => getitem k series) keys with
  | Ok vs => Ok (Np.mk_ndarray [List.length vs] vs)
  | Raise _ => Raise (KeyError (not_in_index keys (missing_labels keys series)))
  end.

(** ** class [Grain_] *)

Module Grain_.

Record t : Type := mk {
  ID : pyval;
  orientation : option Np.ndarray;
  location : option Np.ndarray;
  latticeParameters : option LatticeParameters_.t;
  diffPos : pyval;
  diffOme : pyval;
  diffAngle : pyval;
  radius : pyval;
  confidence : pyval;
  strainFab : option Np.ndarray;
  strainKen : option Np.ndarray;
  rmsErrorStrain : pyval;
  phaseNumber : pyval
}.

(** [Grain_()] *)
Definition init : t :=
  mk PNone None None None PNone PNone PNone PNone PNone None None PNone PNone.

Definition set_ID (v : pyval) (g : t) : t :=
  mk v (orientation g) (location g) (latticeParameters g) (diffPos g) (diffOme g)
     (diffAngle g) (radius g) (confidence g) (strainFab g) (strainKen g)
     (rmsErrorStrain g) (phaseNumber g).
Definition set_orientation (v : Np.ndarray) (g : t) : t :=
  mk (ID g) (Some v) (location g) (latticeParameters g) (diffPos g) (diffOme g)
     (diffAngle g) (radius g) (confidence g) (strainFab g) (strainKen g)
     (rmsErrorStrain g) (phaseNumber g).
Definition set_location (v : Np.ndarray) (g : t) : t :=
  mk (ID g) (orientation g) (Some v) (latticeParameters g) (diffPos g) (diffOme g)
     (diffAngle g) (radius g) (confidence g) (strainFab g) (strainKen g)
     (rmsErrorStrain g) (phaseNumber g).
Definition set_latticeParameters (v : LatticeParameters_.t) (g : t) : t :=
  mk (ID g) (orientation g) (location g) (Some v) (diffPos g) (diffOme g)
     (diffAngle g) (radius g) (confidence g) (strainFab g) (strainKen g)
     (rmsErrorStrain g) (phaseNumber g).
Definition set_diffPos (v : pyval) (g : t) : t :=
  mk (ID g) (orientation g) (location g) (latticeParameters g) v (diffOme g)
     (diffAngle g) (radius g) (confidence g) (strainFab g) (strainKen g)
     (rmsErrorStrain g) (phaseNumber g).
Definition set_diffOme (v : pyval) (g : t) : t :=
  mk (ID g) (orientation g) (location g) (latticeParameters g) (diffPos g) v
     (diffAngle g) (radius g) (confidence g) (strainFab g) (strainKen g)
     (rmsErrorStrain g) (phaseNumber g).
Definition set_diffAngle (v : pyval) (g : t) : t :=
  mk (ID g) (orientation g) (location g) (latticeParameters g) (diffPos g) (diffOme g)
     v (radius g) (confidence g) (strainFab g) (strainKen g)
     (rmsErrorStrain g) (phaseNumber g).
Definition set_radius (v : pyval) (g : t) : t :=
  mk (ID g) (orientation g) (location g) (latticeParameters g) (diffPos g) (diffOme g)
     (diffAngle g) v (confidence g) (strainFab g) (strainKen g)
     (rmsErrorStrain g) (phaseNumber g).
Definition set_confidence (v : pyval) (g : t) : t :=
  mk (ID g) (orientation g) (location g) (latticeParameters g) (diffPos g) (diffOme g)
     (diffAngle g) (radius g) v (strainFab g) (strainKen g)
     (rmsErrorStrain g) (phaseNumber g).
Definition set_strainFab (v : Np.ndarray) (g : t) : t :=
  mk (ID g) (orientation g) (location g) (latticeParameters g) (diffPos g) (diffOme g)
     (diffAngle g) (radius g) (confidence g) (Some v) (strainKen g)
     (rmsErrorStrain g) (phaseNumber g).
Definition set_strainKen (v : Np.ndarray) (g : t) : t :=
  mk (ID g) (orientation g) (location g) (latticeParameters g) (diffPos g) (diffOme g)
     (diffAngle g) (radius g) (confidence g) (strainFab g) (Some v)
     (rmsErrorStrain g) (phaseNumber g).
Definition set_rmsErrorStrain (v : pyval) (g : t) : t :=
  mk (ID g) (orientation g) (location g) (latticeParameters g) (diffPos g) (diffOme g)
     (diffAngle g) (radius g) (confidence g) (strainFab g) (strainKen g)
     v (phaseNumber g).
Definition set_phaseNumber (v : pyval) (g : t) : t :=
  mk (ID g) (orientation g) (location g) (latticeParameters g) (diffPos g) (diffOme g)
     (diffAngle g) (radius g) (confidence g) (strainFab g) (strainKen g)
     (rmsErrorStrain g) v.

(** [x == y] on the [latticeParameters] attribute: [None == None] is
    true; with one side [None] the comparison method reads an attribute
    of [None]. *)
Definition lattice_eq (x y : option LatticeParameters_.t) : result bool :=
  match x, y with
  | Some l, Some r => LatticeParameters_.eq l r
  | None, None => Ok true
  | _, _ => Raise AttributeError
  end.

(** [self == rhs] *)
Definition eq (self rhs : t) : result bool :=
  (Ok (py_eq (ID self) (ID rhs)) &&&
   Np.allclose (orientation self) (orientation rhs) &&&
   Np.allclose (location self) (location rhs) &&&
   lattice_eq (latticeParameters self) (latticeParameters rhs) &&&
   Np.isclose (diffPos self) (diffPos rhs) &&&
   Np.isclose (diffOme self) (diffOme rhs) &&&
   Np.isclose (diffAngle self) (diffAngle rhs) &&&
   Np.isclose (radius self) (radius rhs) &&&
   Np.allclose (strainFab self) (strainFab rhs) &&&
   Np.allclose (strainKen self) (strainKen rhs) &&&
   Ok (py_eq (phaseNumber self) (phaseNumber rhs)))%py.

Definition orientation_columns : list string :=
  ["O11"; "O12"; "O13"; "O21"; "O22"; "O23"; "O31"; "O32"; "O33"].
Definition location_columns : list string := ["X"; "Y"; "Z"].
Definition strainFab_columns : list string :=
  ["eFab11"; "eFab12"; "eFab13"; "eFab21"; "eFab22"; "eFab23";
   "eFab31"; "eFab32"; "eFab33"].
Definition strainKen_columns : list string :=
  ["eKen11"; "eKen12"; "eKen13"; "eKen21"; "eKen22"; "eKen23";
   "eKen31"; "eKen32"; "eKen33"].

(** The name of the column that holds row [i], column [j] (counted from
    0) of a tensor: the prefix and the two indices counted from 1. *)
Definition column (prefix : string) (i j : nat) : string :=
  (prefix ++ Str.of_int (Z.of_nat (S i)) ++ Str.of_int (Z.of_nat (S j)))%string.

(** The columns that [from_Series] reads, in the order of the file. *)
Definition required_columns : list string :=
  ["GrainID"] ++ orientation_columns ++ location_columns
  ++ ["a"; "b"; "c"; "alpha"; "beta"; "gamma";
      "DiffPos"; "DiffOme"; "DiffAngle"; "GrainRadius"; "Confidence"]
  ++ strainFab_columns ++ strainKen_columns
  ++ ["RMSErrorStrain"; "PhaseNr"].

(** The keyword arguments of the call that builds the grain's lattice:
    every argument is read from the row before the constructor runs. *)
Definition lattice_of (series : Series) : result LatticeParameters_.t :=
  (a <- getitem "a" series ;;
   b <- getitem "b" series ;;
   c <- getitem "c" series ;;
   alpha <- getitem "alpha" series ;;
   beta <- getitem "beta" series ;;
   gamma <- getitem "gamma" series ;;
   LatticeParameters_.init
     [("a", a); ("b", b); ("c", c);
      ("alpha", alpha); ("beta", beta); ("gamma", gamma)])%py.

(** [self.from_Series(series)]: the attributes are stored one after the
    other; the method returns [self]. *)
Definition from_Series (series : Series) : M t unit :=
  (assign (getitem "GrainID" series) set_ID >>
   assign (v <- getitems_values orientation_columns series ;; Np.reshape [3; 3]%nat v)
          set_orientation >>
   assign (getitems_values location_columns series) set_location >>
   assign (lattice_of series) set_latticeParameters >>
   assign (getitem "DiffPos" series) set_diffPos >>
   assign (getitem "DiffOme" series) set_diffOme >>
   assign (getitem "DiffAngle" series) set_diffAngle >>
   assign (getitem "GrainRadius" series) set_radius >>
   assign (getitem "Confidence" series) set_confidence >>
   assign (v <- getitems_values strainFab_columns series ;; Np.reshape [3; 3]%nat v)
          set_strainFab >>
   assign (v <- getitems_values strainKen_columns series ;; Np.reshape [3; 3]%nat v)
          set_strainKen >>
   assign (getitem "RMSErrorStrain" series) set_rmsErrorStrain >>
   assign (v <- getitem "PhaseNr" series ;; z <- Num.int_ v ;; Ok (PInt z))
          set_phaseNumber)%py.

(** [Grain_().from_Series(row)]: the new grain, or the exception. *)
Definition of_row (row : Series) : result t :=
  match from_Series row init with
  | (g, Ok _) => Ok g
  | (_, Raise e) => Raise e
  end.

End Grain_.

(** ** The environment of [Grains.parse] *)

(** The regular files: [fs path] is the text that [open(path).read()]
    returns, [None] when [os.path.isfile(path)] is false. *)
Definition FileSystem : Type := string -> option string.

Definition isfile (fs : FileSystem) (path : string) : bool :=
  match fs path with
  | Some _ => true
  | None => false
  end.

Definition open_read (fs : FileSystem) (path : string) : result string :=
  match fs path with
  | Some text => Ok text
  | None => Raise (IOError path)
  end.

(** The same files with [path] holding [text]. *)
Definition with_file (fs : FileSystem) (path text : string) : FileSystem :=
  fun p => if (p =? path)%string then Some text else fs p.

(** The rows of a [DataFrame] in the order of [iterrows()]. *)
Definition DataFrame : Type := list Series.

(** [header[i]] *)
Definition getline (header : list string) (i : nat) : result string :=
  match nth_error header i with
  | Some line => Ok line
  | None => Raise IndexError
  end.

(** [key, value = parts] *)
Definition unpack2 (parts : list string) : result (string * string) :=
  match parts with
  | [key; value] => Ok (key, value)
  | _ => Raise ValueError
  end.

(** [a, b, c, alpha, beta, gamma = parts] *)
Definition unpack6 (parts : list string) : result LatticeParameters_.kwargs :=
  match parts with
  | [a; b; c; alpha; beta; gamma] =>
      Ok [("a", PStr a); ("b", PStr b); ("c", PStr c);
          ("alpha", PStr alpha); ("beta", PStr beta); ("gamma", PStr gamma)]
  | _ => Raise ValueError
  end.

(** [if key != expected: IOError(...)]: the exception object is built and
    dropped; the statement raises nothing. *)
Definition expect_key (key expected filename : string) : result unit :=
  let _ :=
    if negb (key =? expected)%string
    then Some (IOError (filename ++ " is not a valid format."))
    else None in
  Ok tt.

(** ** class [Grains] *)

Module Grains.

Record t : Type := mk {
  numGrains_ : option Z;
  beamCenter_ : option float;
  beamThickness_ : option float;
  globalPosition_ : option float;
  numPhases_ : option Z;
  spaceGroup_ : option Z;
  latticeParameters_ : option LatticeParameters_.t;
  grains : list Grain_.t
}.

(** [Grains()] *)
Definition init : t := mk None None None None None None None [].

(** The read-only properties. *)
Definition NumGrains (self : t) : option Z := numGrains_ self.
Definition BeamCenter (self : t) : option float := beamCenter_ self.
Definition BeamThickness (self : t) : option float := beamThickness_ self.
Definition GlobalPosition (self : t) : option float := globalPosition_ self.
Definition NumPhases (self : t) : option Z := numPhases_ self.
Definition SpaceGroup (self : t) : option Z := spaceGroup_ self.
Definition LatticeParameters (self : t) : option LatticeParameters_.t :=
  latticeParameters_ self.

Definition set_numGrains_ (v : Z) (s : t) : t :=
  mk (Some v) (beamCenter_ s) (beamThickness_ s) (globalPosition_ s)
     (numPhases_ s) (spaceGroup_ s) (latticeParameters_ s) (grains s).
Definition set_beamCenter_ (v : float) (s : t) : t :=
  mk (numGrains_ s) (Some v) (beamThickness_ s) (globalPosition_ s)
     (numPhases_ s) (spaceGroup_ s) (latticeParameters_ s) (grains s).
Definition set_beamThickness_ (v : float) (s : t) : t :=
  mk (numGrains_ s) (beamCenter_ s) (Some v) (globalPosition_ s)
     (numPhases_ s) (spaceGroup_ s) (latticeParameters_ s) (grains s).
Definition set_globalPosition_ (v : float) (s : t) : t :=
  mk (numGrains_ s) (beamCenter_ s) (beamThickness_ s) (Some v)
     (numPhases_ s) (spaceGroup_ s) (latticeParameters_ s) (grains s).
Definition set_numPhases_ (v : Z) (s : t) : t :=
  mk (numGrains_ s) (beamCenter_ s) (beamThickness_ s) (globalPosition_ s)
     (Some v) (spaceGroup_ s) (latticeParameters_ s) (grains s).
Definition set_spaceGroup_ (v : Z) (s : t) : t :=
  mk (numGrains_ s) (beamCenter_ s) (beamThickness_ s) (globalPosition_ s)
     (numPhases_ s) (Some v) (latticeParameters_ s) (grains s).
Definition set_latticeParameters_ (v : LatticeParameters_.t) (s : t) : t :=
  mk (numGrains_ s) (beamCenter_ s) (beamThickness_ s) (globalPosition_ s)
     (numPhases_ s) (spaceGroup_ s) (Some v) (grains s).
Definition set_grains (v : list Grain_.t) (s : t) : t :=
  mk (numGrains_ s) (beamCenter_ s) (beamThickness_ s) (globalPosition_ s)
     (numPhases_ s) (spaceGroup_ s) (latticeParameters_ s) v.

(** [str(x)] for the value of [NumGrains]. *)
Definition str_count (n : option Z) : string :=
  match n with
  | Some z => Str.of_int z
  | None => "None"
  end.

(** The message of the integrity error. *)
Definition count_message (expected : option Z) (actual : nat) : string :=
  (str_count expected ++ " grains were expected, but only "
   ++ Str.of_int (Z.of_nat actual) ++ " were read.")%string.

(** [len(self.grains) != self.NumGrains] *)
Definition count_differs (self : t) : bool :=
  match NumGrains self with
  | Some n => negb (Z.of_nat (List.length (grains self)) =? n)
  | None => true
  end.

(** The last statements of [parse]: the integrity check. *)
Definition verify : M t unit :=
  fun self =>
    if count_differs self
    then (self, Raise (IOError (count_message (NumGrains self)
                                              (List.length (grains self)))))
    else (self, Ok tt).

Section Parse.

(** [fun text => pandas.read_table(StringIO(text), skiprows=8,
    index_col=False)], with the exception it raises if any. *)
Variable read_table : string -> result DataFrame.

Variable fs : FileSystem.

(** The statements of [parse] that read the eight header lines. *)
Definition read_header (filename : string) (header : list string) : M t unit :=
  ((* number of grains *)
   kv <~ lift (line <- getline header 0 ;; unpack2 (Str.split line)) ;;
   lift (expect_key (fst kv) "NumGrains" filename) >>
   assign (Num.int_of_str (snd kv)) set_numGrains_ >>
   (* beam center *)
   kv <~ lift (line <- getline header 1 ;; unpack2 (Str.split line)) ;;
   lift (expect_key (fst kv) "BeamCenter" filename) >>
   assign (Num.float_of_str (snd kv)) set_beamCenter_ >>
   (* beam thickness *)
   kv <~ lift (line <- getline header 2 ;; unpack2 (Str.split line)) ;;
   lift (expect_key (fst kv) "BeamThickness" filename) >>
   assign (Num.float_of_str (snd kv)) set_beamThickness_ >>
   (* global position *)
   kv <~ lift (line <- getline header 3 ;; unpack2 (Str.split line)) ;;
   lift (expect_key (fst kv) "GlobalPosition" filename) >>
   assign (Num.float_of_str (snd kv)) set_globalPosition_ >>
   (* number of phases *)
   kv <~ lift (line <- getline header 4 ;; unpack2 (Str.split line)) ;;
   lift (expect_key (fst kv) "NumPhases" filename) >>
   assign (Num.int_of_str (snd kv)) set_numPhases_ >>
   (* space group *)
   kv <~ lift (line <- getline header 6 ;; unpack2 (Str.split_on ":" line)) ;;
   lift (expect_key (fst kv) "SpaceGroup" filename) >>
   assign (Num.int_of_str (snd kv)) set_spaceGroup_ >>
   (* lattice parameters *)
   kv <~ lift (line <- getline header 7 ;; unpack2 (Str.split_on ":" line)) ;;
   lift (expect_key (fst kv) "Lattice Parameter" filename) >>
   kwds <~ lift (unpack6 (Str.split_on " " (Str.strip (snd kv)))) ;;
   assign (LatticeParameters_.init kwds) set_latticeParameters_)%py.

(** The header lines of the cleaned text: [[s.strip() for s in
    sio.readlines()[:8]]]. *)
Definition header_of (text : string) : list string :=
  map Str.strip (firstn 8 (Str.readlines text)).

(** [self.parse(filename)]: the instance as the call leaves it and
    [Ok tt] when the call returns [self]. *)
Definition parse (filename : string) : M t unit :=
  if negb (isfile fs filename)
  then lift (Raise (IOError (filename ++ " was not found.")))
  else
    (text <~ lift (content <- open_read fs filename ;;
                   Ok (Str.replace "%" "" content)) ;;
     table <~ lift (read_table text) ;;
     read_header filename (header_of text) >>
     (* read data from the table *)
     assign (mapM Grain_.of_row table) set_grains >>
     (* verify the file integrity *)
     verify)%py.

End Parse.

End Grains.

(** ** Sample files *)

Module Fixture.

Definition TAB : string := String "009"%char EmptyString.
Definition LF : string := String "010"%char EmptyString.

Fixpoint join (sep : string) (parts : list string) : string :=
  match parts with
  | [] => EmptyString
  | [p] => p
  | p :: rest => (p ++ sep ++ join sep rest)%string
  end.

(** A cell of a numeric table. *)
Definition cell (s : string) : pyval :=
  match Num.float_of_str s with
  | Ok f => PFloat f
  | Raise _ => PStr s
  end.

(** The type that pandas gives a column: [int64] when every cell is an
    integer, [float64] when every cell is a number, [object] otherwise. *)
Inductive dtype : Type := Int64 | Float64 | Object.

Definition cell_dtype (s : string) : dtype :=
  match Num.int_of_str s with
  | Ok _ => Int64
  | Raise _ =>
      match Num.float_of_str s with
      | Ok _ => Float64
      | Raise _ => Object
      end
  end.

(** The common type of two types. *)
Definition common (x y : dtype) : dtype :=
  match x, y with
  | Object, _ | _, Object => Object
  | Float64, _ | _, Float64 => Float64
  | Int64, Int64 => Int64
  end.

Fixpoint common_each (xs ys : list dtype) : list dtype :=
  match xs, ys with
  | x :: xs', y :: ys' => common x y :: common_each xs' ys'
  | _, _ => []
  end.

(** The types of the columns of a table given by its rows. *)
Definition column_dtypes (width : nat) (rows : list (list string)) : list dtype :=
  fold_right (fun row acc => common_each (map cell_dtype row) acc)
             (List.repeat Int64 width) rows.

(** The cell of a row that [iterrows()] yields: the row has the common
    type of the columns; in a row of type [object] each cell keeps the
    type of its column. *)
Definition typed_cell (row_dtype column_dtype : dtype) (s : string) : pyval :=
  match (match row_dtype with Object => column_dtype | _ => row_dtype end) with
  | Int64 =>
      match Num.int_of_str s with
      | Ok z => PInt z
      | Raise _ => PStr s
      end
  | Float64 => cell s
  | Object => PStr s
  end.

Fixpoint typed_cells (row_dtype : dtype) (columns : list dtype) (cells : list string)
    : list pyval :=
  match columns, cells with
  | c :: columns', s :: cells' =>
      typed_cell row_dtype c s :: typed_cells row_dtype columns' cells'
  | _, _ => []
  end.

(** A stand-in for [pandas.read_table(..., skiprows=8, index_col=False)]
    on rectangular, tab-separated tables of plain decimal numbers: the
    first eight lines are skipped, blank lines are dropped, the next line
    names the columns, each further line is a row. *)
Definition read_table (text : string) : result DataFrame :=
  let lines :=
    filter (fun l => negb (Str.is_empty l))
           (map Str.strip (skipn 8 (Str.readlines text))) in
  match lines with
  | [] => Raise (LibraryError "EmptyDataError")
  | names :: rows =>
      let columns := Str.split_on "009"%char names in
      let cells := map (Str.split_on "009"%char) rows in
      let dtypes := column_dtypes (List.length columns) cells in
      let row_dtype := fold_right common Int64 dtypes in
      Ok (map (fun row => combine columns (typed_cells row_dtype dtypes row)) cells)
  end.

Definition row1 : list string :=
  ["28993";
   "0.271464"; "-0.916874"; "0.292659";
   "0.268031"; "0.364068"; "0.891972";
   "-0.924374"; "-0.163697"; "0.344582";
   "493.292893"; "123.973909"; "-107.835596";
   "2.927856"; "2.928191"; "4.675998"; "90.009090"; "89.992938"; "119.996361";
   "34.567103"; "0.022833"; "0.023007"; "56.880771"; "0.714286";
   "1866.987953"; "-117.463968"; "31.632868";
   "-117.463968"; "1371.959916"; "-218.893846";
   "31.632868"; "-218.893846"; "1783.042796";
   "1636.729740"; "-66.912142"; "35.586919";
   "-66.912142"; "1355.049493"; "-81.023606";
   "35.586919"; "-81.023606"; "2094.456698";
   "153.000403"; "1"].

(** A file in the layout of [Grains.csv]: the first two header lines
    are given, the other six and the table are fixed. *)
Definition grains_csv (line1 line2 : string) : string :=
  (join LF
     [line1;
      line2;
      "%BeamThickness 2000.000000";
      "%GlobalPosition 0.000000";
      "%NumPhases 1";
      "%PhaseInfo";
      "%" ++ TAB ++ "SpaceGroup:194";
      "%" ++ TAB ++ "Lattice Parameter: 2.922600 2.922600 4.670050 90.000000 90.000000 120.000000";
      "%" ++ join TAB Grain_.required_columns;
      join TAB row1] ++ LF)%string.

(** The minimal file of the tests. *)
Definition minimal : string :=
  grains_csv "%NumGrains 1" "%BeamCenter -20.407685".

(** The same file with the key of line 1 misspelled. *)
Definition misspelled : string :=
  grains_csv "%NumGrain 1" "%BeamCenter -20.407685".

(** The same file declaring two grains. *)
Definition two_declared : string :=
  grains_csv "%NumGrains 2" "%BeamCenter -20.407685".

(** The same file with line 2 lacking its value. *)
Definition no_beam_center : string :=
  grains_csv "%NumGrains 1" "%BeamCenter".

(** The minimal file with percent signs inside numbers. *)
Definition noisy : string :=
  grains_csv "%NumGrains %1" "%BeamCenter -20.4%07685".

(** A file system that holds one file. *)
Definition disk (path text : string) : FileSystem :=
  with_file (fun _ => None) path text.

(** A row with [O11 = 1], ..., [O33 = 9], the strain tensors numbered
    likewise from 11 and from 21, and every other column 0. *)
Definition numbered_row : Series :=
  combine Grain_.required_columns
    (map PFloat
       [0; 1; 2; 3; 4; 5; 6; 7; 8; 9; 0; 0; 0;
        0; 0; 0; 0; 0; 0; 0; 0; 0; 0; 0;
        11; 12; 13; 14; 15; 16; 17; 18; 19;
        21; 22; 23; 24; 25; 26; 27; 28; 29;
        0; 0]%float).

End Fixture.


(** A cubic lattice given by [a] and [alpha] only. *)
Definition cubic : LatticeParameters_.t :=
  LatticeParameters_.mk (Some 4.5%float) None None (Some 90%float) None None.

(** The lattice of the docstring of the constructor:
    [LatticeParameters(a=4.09)]. *)
Definition docstring_cubic : LatticeParameters_.t :=
  LatticeParameters_.mk (Some (Num.float_of_decimal false 409 (-2)))
    None None None None None.

(** A lattice with lengths only. *)
Definition lengths_only : LatticeParameters_.t :=
  LatticeParameters_.mk (Some 4.5%float) None None None None None.

(** The same with another length. *)
Definition other_lengths : LatticeParameters_.t :=
  LatticeParameters_.mk (Some 3.25%float) None None None None None.

(** ** How far a call of [Grains.parse] got *)

(** The attributes of [Grains] in the order in which [parse] stores them:
    0 [numGrains_], 1 [beamCenter_], 2 [beamThickness_], 3
    [globalPosition_], 4 [numPhases_], 5 [spaceGroup_], 6
    [latticeParameters_], 7 [grains]. *)

(** The first [k] header attributes hold a value. *)
Definition assigned_before (k : nat) (s : Grains.t) : Prop :=
  ((0 < k)%nat -> Grains.numGrains_ s <> None)
  /\ ((1 < k)%nat -> Grains.beamCenter_ s <> None)
  /\ ((2 < k)%nat -> Grains.beamThickness_ s <> None)
  /\ ((3 < k)%nat -> Grains.globalPosition_ s <> None)
  /\ ((4 < k)%nat -> Grains.numPhases_ s <> None)
  /\ ((5 < k)%nat -> Grains.spaceGroup_ s <> None)
  /\ ((6 < k)%nat -> Grains.latticeParameters_ s <> None).

(** The attributes from position [k] on are those of [s0]. *)
Definition untouched_from (k : nat) (s0 s : Grains.t) : Prop :=
  ((k <= 0)%nat -> Grains.numGrains_ s = Grains.numGrains_ s0)
  /\ ((k <= 1)%nat -> Grains.beamCenter_ s = Grains.beamCenter_ s0)
  /\ ((k <= 2)%nat -> Grains.beamThickness_ s = Grains.beamThickness_ s0)
  /\ ((k <= 3)%nat -> Grains.globalPosition_ s = Grains.globalPosition_ s0)
  /\ ((k <= 4)%nat -> Grains.numPhases_ s = Grains.numPhases_ s0)
  /\ ((k <= 5)%nat -> Grains.spaceGroup_ s = Grains.spaceGroup_ s0)
  /\ ((k <= 6)%nat -> Grains.latticeParameters_ s = Grains.latticeParameters_ s0)
  /\ ((k <= 7)%nat -> Grains.grains s = Grains.grains s0).

(** The grain of the minimal file, and the same grain with another
    confidence and another strain error. *)
Definition sample_row : Series :=
  combine Grain_.required_columns (map Fixture.cell Fixture.row1).

Definition sample_grain : Grain_.t :=
  fst (Grain_.from_Series sample_row Grain_.init).

Definition other_confidence : Grain_.t :=
  Grain_.set_rmsErrorStrain (PFloat 0.5)
    (Grain_.set_confidence (PFloat 0.25) sample_grain).

(** ** Descriptions of what the constructor of [LatticeParameters_] stores *)

(** The attribute that a keyword argument leaves: [float] of the value
    when the keyword is given, nothing when it is not. *)
Definition converted (arg : option pyval) : option float :=
  match arg with
  | Some v =>
      match Num.float_ v with
      | Ok f => Some f
      | Raise _ => None
      end
  | None => None
  end.

(** [float()] accepts the keyword argument, if it is given. *)
Definition convertible (arg : option pyval) : Prop :=
  match arg with
  | Some v => exists f, Num.float_ v = Ok f
  | None => True
  end.

(** The six attributes are all set. *)
Definition fully_set (l : LatticeParameters_.t) : Prop :=
  LatticeParameters_.a_ l <> None /\ LatticeParameters_.b_ l <> None
  /\ LatticeParameters_.c_ l <> None /\ LatticeParameters_.alpha_ l <> None
  /\ LatticeParameters_.beta_ l <> None /\ LatticeParameters_.gamma_ l <> None.

(** Two lattices with every attribute set, which differ in [c]. *)
Definition hexagonal : LatticeParameters_.t :=
  LatticeParameters_.mk (Some 3.25%float) (Some 3.25%float) (Some 4.5%float)
    (Some 90%float) (Some 90%float) (Some 120%float).

Definition stretched : LatticeParameters_.t :=
  LatticeParameters_.mk (Some 3.25%float) (Some 3.25%float) (Some 4.75%float)
    (Some 90%float) (Some 90%float) (Some 120%float).

(** The attribute [slot] holds [float] of the value of column [col]. *)
Definition column_float (series : Series) (col : string) (slot : option float) : Prop :=
  exists v f, getitem col series = Ok v /\ Num.float_ v = Ok f /\ slot = Some f.

(** A row without its last column, the phase number. *)
Definition row_without_phase : Series := removelast Fixture.numbered_row.

(** ** Descriptions of the header *)

(** The second of the two tokens of header line [i] (counted from 0), when
    the line is there and has exactly two tokens. *)
Definition ws_value (header : list string) (i : nat) : option string :=
  match nth_error header i with
  | Some line =>
      match Str.split line with
      | [_; value] => Some value
      | _ => None
      end
  | None => None
  end.

(** The text after the colon of header line [i], when the line is there
    and has exactly one colon. *)
Definition colon_value (header : list string) (i : nat) : option string :=
  match nth_error header i with
  | Some line =>
      match Str.split_on ":" line with
      | [_; value] => Some value
      | _ => None
      end
  | None => None
  end.

(** The values that a header gives: the converted value tokens of lines
    1 to 5, 7 and 8. *)
Record header_values : Type := mk_header_values {
  hv_numGrains : Z;
  hv_beamCenter : float;
  hv_beamThickness : float;
  hv_globalPosition : float;
  hv_numPhases : Z;
  hv_spaceGroup : Z;
  hv_lattice : LatticeParameters_.t
}.

(** The header gives the values [hv]. *)
Definition header_gives (header : list string) (hv : header_values) : Prop :=
  (exists v, ws_value header 0 = Some v /\ Num.int_of_str v = Ok (hv_numGrains hv))
  /\ (exists v, ws_value header 1 = Some v
                /\ Num.float_of_str v = Ok (hv_beamCenter hv))
  /\ (exists v, ws_value header 2 = Some v
                /\ Num.float_of_str v = Ok (hv_beamThickness hv))
  /\ (exists v, ws_value header 3 = Some v
                /\ Num.float_of_str v = Ok (hv_globalPosition hv))
  /\ (exists v, ws_value header 4 = Some v /\ Num.int_of_str v = Ok (hv_numPhases hv))
  /\ (exists v, colon_value header 6 = Some v
                /\ Num.int_of_str v = Ok (hv_spaceGroup hv))
  /\ (exists v kwds, colon_value header 7 = Some v
                     /\ unpack6 (Str.split_on " " (Str.strip v)) = Ok kwds
                     /\ LatticeParameters_.init kwds = Ok (hv_lattice hv)).

(** The instance that holds the values [hv] and the grains [gs]. *)
Definition populated (hv : header_values) (gs : list Grain_.t) : Grains.t :=
  Grains.mk (Some (hv_numGrains hv)) (Some (hv_beamCenter hv))
    (Some (hv_beamThickness hv)) (Some (hv_globalPosition hv))
    (Some (hv_numPhases hv)) (Some (hv_spaceGroup hv)) (Some (hv_lattice hv)) gs.

(** ** Further sample files *)

(** The minimal file without the last column of its table, the phase
    number. *)
Definition no_phase_csv : string :=
  (Fixture.join Fixture.LF
     ["%NumGrains 1";
      "%BeamCenter -20.407685";
      "%BeamThickness 2000.000000";
      "%GlobalPosition 0.000000";
      "%NumPhases 1";
      "%PhaseInfo";
      "%" ++ Fixture.TAB ++ "SpaceGroup:194";
      "%" ++ Fixture.TAB
      ++ "Lattice Parameter: 2.922600 2.922600 4.670050 90.000000 90.000000 120.000000";
      "%" ++ Fixture.join Fixture.TAB (removelast Grain_.required_columns);
      Fixture.join Fixture.TAB (removelast Fixture.row1)] ++ Fixture.LF)%string.

(** A file of three lines. *)
Definition three_lines : string :=
  (Fixture.join Fixture.LF ["%NumGrains 1"; "%BeamCenter 0"; "%BeamThickness 1"]
   ++ Fixture.LF)%string.

(** The values of the header of the minimal file. *)
Definition minimal_values : header_values :=
  mk_header_values 1 (Num.float_of_decimal true 20407685 (-6))
    (Num.float_of_decimal false 2000000000 (-6)) (Num.float_of_decimal false 0 (-6))
    1 194
    (LatticeParameters_.mk
       (Some (Num.float_of_decimal false 2922600 (-6)))
       (Some (Num.float_of_decimal false 2922600 (-6)))
       (Some (Num.float_of_decimal false 4670050 (-6)))
       (Some (Num.float_of_decimal false 90000000 (-6)))
       (Some (Num.float_of_decimal false 90000000 (-6)))
       (Some (Num.float_of_decimal false 120000000 (-6)))).

(** The table of [no_phase_csv]. *)
Definition no_phase_table : DataFrame :=
  match Fixture.read_table (Str.replace "%" "" no_phase_csv) with
  | Ok table => table
  | Raise _ => []
  end.

(** ** The test module [tests/test_midas_io.py] *)

Module TestMidasIo.

(** How a test ends: all assertions hold, an assertion fails, or an
    exception other than [AssertionError] leaves the test. *)
Inductive outcome : Type :=
| Passed
| AssertionFailed
| Errored (e : exn).

(** [assert cond, message] followed by [rest]: the message is evaluated
    only when the condition is false, and an exception raised while it is
    evaluated replaces the [AssertionError]. *)
Definition assert (cond : result bool) (message : result unit) (rest : outcome)
    : outcome :=
  match cond with
  | Raise e => Errored e
  | Ok true => rest
  | Ok false =>
      match message with
      | Ok _ => AssertionFailed
      | Raise e => Errored e
      end
  end.

(** The value of an attribute that holds an [int] or [None], a [float] or
    [None]. *)
Definition of_int (x : option Z) : pyval :=
  match x with
  | Some z => PInt z
  | None => PNone
  end.

Definition of_float (x : option float) : pyval :=
  match x with
  | Some f => PFloat f
  | None => PNone
  end.

(** A decimal literal [m * 10^-6] of the test. *)
Definition lit (m : Z) : float := Num.float_of_decimal (m <? 0) (Z.abs m) (-6).

Definition array33 (ms : list Z) : option Np.ndarray :=
  Some (Np.mk_ndarray [3; 3]%nat (map (fun m => PFloat (lit m)) ms)).

(** The fixture [minimal]: the instance that the test expects. *)
Definition minimal_grain : Grain_.t :=
  Grain_.mk (PInt 28993)
    (array33 [271464; -916874; 292659; 268031; 364068; 891972;
              -924374; -163697; 344582])
    (Some (Np.mk_ndarray [3%nat]
             [PFloat (lit 493292893); PFloat (lit 123973909);
              PFloat (lit (-107835596))]))
    (Some (LatticeParameters_.mk (Some (lit 2927856)) (Some (lit 2928191))
             (Some (lit 4675998)) (Some (lit 90009090)) (Some (lit 89992938))
             (Some (lit 119996361))))
    (PFloat (lit 34567103)) (PFloat (lit 22833)) (PFloat (lit 23007))
    (PFloat (lit 56880771)) (PFloat (lit 714286))
    (array33 [1866987953; -117463968; 31632868; -117463968; 1371959916;
              -218893846; 31632868; -218893846; 1783042796])
    (array33 [1636729740; -66912142; 35586919; -66912142; 1355049493;
              -81023606; 35586919; -81023606; 2094456698])
    (PFloat (lit 153000403)) (PInt 1).

Definition minimal : Grains.t :=
  Grains.mk (Some 1) (Some (lit (-20407685))) (Some (lit 2000000000))
    (Some (lit 0)) (Some 1) (Some 194)
    (Some (LatticeParameters_.mk (Some (lit 2922600)) (Some (lit 2922600))
             (Some (lit 4670050)) (Some (lit 90000000)) (Some (lit 90000000))
             (Some (lit 120000000))))
    [minimal_grain].

(** The loop over [zip(test.grains, truth.grains)]: each pair is asserted
    equal; the loop ends with the shorter list. *)
Fixpoint compare_grains (test truth : list Grain_.t) : outcome :=
  match test, truth with
  | lhs :: test', rhs :: truth' =>
      assert (Grain_.eq lhs rhs) (Ok tt) (compare_grains test' truth')
  | _, _ => Passed
  end.

(** The assertions of [test_grains] on the parsed instance [test] and the
    fixture [truth], in the order of the test.  The message of the fourth
    assertion reads [test.GlobalPositions], an attribute that [Grains]
    does not have; the fifth compares [test.NumPhases] with itself. *)
Definition assertions (test truth : Grains.t) : outcome :=
  assert (Ok (py_eq (of_int (Grains.NumGrains test)) (of_int (Grains.NumGrains truth))))
    (Ok tt)
  (assert (Np.isclose (of_float (Grains.BeamCenter test))
                      (of_float (Grains.BeamCenter truth))) (Ok tt)
  (assert (Np.isclose (of_float (Grains.BeamThickness test))
                      (of_float (Grains.BeamThickness truth))) (Ok tt)
  (assert (Np.isclose (of_float (Grains.GlobalPosition test))
                      (of_float (Grains.GlobalPosition truth)))
          (Raise AttributeError)
  (assert (Ok (py_eq (of_int (Grains.NumPhases test)) (of_int (Grains.NumPhases test))))
          (Ok tt)
  (assert (Ok (py_eq (of_int (Grains.SpaceGroup test))
                     (of_int (Grains.SpaceGroup truth)))) (Ok tt)
  (assert (Grain_.lattice_eq (Grains.LatticeParameters test)
                             (Grains.LatticeParameters truth)) (Ok tt)
  (compare_grains (Grains.grains test) (Grains.grains truth)))))))).

(** [test_grains(minimal)]: parse the data file into a new instance, then
    assert. *)
Definition test_grains (read_table : string -> result DataFrame) (fs : FileSystem)
    (truth : Grains.t) : outcome :=
  match Grains.parse read_table fs "data/Grains-minimal.csv" Grains.init with
  | (test, Ok _) => assertions test truth
  | (_, Raise e) => Errored e
  end.

End TestMidasIo.

(** The parsed minimal file with another global position and another
    number of phases. *)
Definition moved : Grains.t :=
  Grains.set_globalPosition_ 5%float
    (fst (Grains.parse Fixture.read_table (Fixture.disk "g.csv" Fixture.minimal)
            "g.csv" Grains.init)).

Definition more_phases : Grains.t :=
  Grains.set_numPhases_ 7
    (fst (Grains.parse Fixture.read_table (Fixture.disk "g.csv" Fixture.minimal)
            "g.csv" Grains.init)).

(** ** The file as it is stored *)








(** ** The statements of the header, one by one *)

(** [key, value = header[i].split()] and [key, value =
    header[i].split(':')]. *)
Definition split_line (header : list string) (i : nat) : result (string * string) :=
  (line <- getline header i ;; unpack2 (Str.split line))%py.

Definition split_colon (header : list string) (i : nat) : result (string * string) :=
  (line <- getline header i ;; unpack2 (Str.split_on ":" line))%py.

(** The value that each header statement stores, or the exception that
    it raises. *)
Definition numGrains_of (header : list string) : result Z :=
  (kv <- split_line header 0 ;; Num.int_of_str (snd kv))%py.

Definition beamCenter_of (header : list string) : result float :=
  (kv <- split_line header 1 ;; Num.float_of_str (snd kv))%py.

Definition beamThickness_of (header : list string) : result float :=
  (kv <- split_line header 2 ;; Num.float_of_str (snd kv))%py.

Definition globalPosition_of (header : list string) : result float :=
  (kv <- split_line header 3 ;; Num.float_of_str (snd kv))%py.

Definition numPhases_of (header : list string) : result Z :=
  (kv <- split_line header 4 ;; Num.int_of_str (snd kv))%py.

Definition spaceGroup_of (header : list string) : result Z :=
  (kv <- split_colon header 6 ;; Num.int_of_str (snd kv))%py.

Definition latticeParameters_of (header : list string) : result LatticeParameters_.t :=
  (kv <- split_colon header 7 ;;
   kwds <- unpack6 (Str.split_on " " (Str.strip (snd kv))) ;;
   LatticeParameters_.init kwds)%py.

(** The first [k] header statements return the values of [hv]. *)
Definition stages_ok (header : list string) (k : nat) (hv : header_values) : Prop :=
  ((0 < k)%nat -> numGrains_of header = Ok (hv_numGrains hv))
  /\ ((1 < k)%nat -> beamCenter_of header = Ok (hv_beamCenter hv))
  /\ ((2 < k)%nat -> beamThickness_of header = Ok (hv_beamThickness hv))
  /\ ((3 < k)%nat -> globalPosition_of header = Ok (hv_globalPosition hv))
  /\ ((4 < k)%nat -> numPhases_of header = Ok (hv_numPhases hv))
  /\ ((5 < k)%nat -> spaceGroup_of header = Ok (hv_spaceGroup hv))
  /\ ((6 < k)%nat -> latticeParameters_of header = Ok (hv_lattice hv)).

(** The header statement of position [k] (counted from 0) raises [e]. *)
Definition stage_raises (header : list string) (k : nat) (e : exn) : Prop :=
  match k with
  | 0%nat => numGrains_of header = Raise e
  | 1%nat => beamCenter_of header = Raise e
  | 2%nat => beamThickness_of header = Raise e
  | 3%nat => globalPosition_of header = Raise e
  | 4%nat => numPhases_of header = Raise e
  | 5%nat => spaceGroup_of header = Raise e
  | 6%nat => latticeParameters_of header = Raise e
  | _ => False
  end.

(** The instance [s0] after the first [k] header attributes have been
    stored from [hv]: the other attributes, and the grains, are those of
    [s0]. *)
Definition stored_upto (k : nat) (hv : header_values) (s0 : Grains.t) : Grains.t :=
  Grains.mk
    (if (0 <? k)%nat then Some (hv_numGrains hv) else Grains.numGrains_ s0)
    (if (1 <? k)%nat then Some (hv_beamCenter hv) else Grains.beamCenter_ s0)
    (if (2 <? k)%nat then Some (hv_beamThickness hv) else Grains.beamThickness_ s0)
    (if (3 <? k)%nat then Some (hv_globalPosition hv) else Grains.globalPosition_ s0)
    (if (4 <? k)%nat then Some (hv_numPhases hv) else Grains.numPhases_ s0)
    (if (5 <? k)%nat then Some (hv_spaceGroup hv) else Grains.spaceGroup_ s0)
    (if (6 <? k)%nat then Some (hv_lattice hv) else Grains.latticeParameters_ s0)
    (Grains.grains s0).

(** ** Grains on either side of the tolerance *)

(** The sample grain with its diffraction position at 100000 and at
    100001.00001. *)
Definition near_position : Grain_.t :=
  Grain_.set_diffPos (PFloat (Num.float_of_decimal false 100000 0)) sample_grain.

Definition far_position : Grain_.t :=
  Grain_.set_diffPos (PFloat (Num.float_of_decimal false 10000100001 (-5)))
    sample_grain.

(** * Properties *)

(** ** Sequencing *)

Lemma mbind_ok_inv {S A B : Type} (c : M S A) (k : A -> M S B) (s s' : S) (b : B) :
  mbind c k s = (s', Ok b) ->
  exists a s1, c s = (s1, Ok a) /\ k a s1 = (s', Ok b).
Proof.
  unfold mbind. destruct (c s) as [s1 [a | e]]; intros H.
  - exists a, s1. split; [reflexivity | exact H].
  - discriminate H.
Qed.

Lemma mbind_raise_inv {S A B : Type} (c : M S A) (k : A -> M S B) (s s' : S) (e : exn) :
  mbind c k s = (s', Raise e) ->
  c s = (s', Raise e) \/ exists a s1, c s = (s1, Ok a) /\ k a s1 = (s', Raise e).
Proof.
  unfold mbind. destruct (c s) as [s1 [a | e1]]; intros H.
  - right. exists a, s1. split; [reflexivity | exact H].
  - left. inversion H. reflexivity.
Qed.

Lemma lift_inv {S A : Type} (r : result A) (s s' : S) (x : result A) :
  lift r s = (s', x) -> s' = s /\ x = r.
Proof. unfold lift. intros H. inversion H. split; reflexivity. Qed.

Lemma assign_ok_inv {S A : Type} (r : result A) (store : A -> S -> S) (s s' : S) (u : unit) :
  assign r store s = (s', Ok u) -> exists v, r = Ok v /\ s' = store v s.
Proof.
  unfold assign. destruct r as [v | e]; intros H; inversion H.
  exists v. split; reflexivity.
Qed.

Lemma assign_raise_inv {S A : Type} (r : result A) (store : A -> S -> S) (s s' : S) (e : exn) :
  assign r store s = (s', Raise e) -> s' = s /\ r = Raise e.
Proof.
  unfold assign. destruct r as [v | e1]; intros H; inversion H.
  split; reflexivity.
Qed.

(** ** Strings *)





(** ** [Grains.parse]: the file and its percent signs *)

Section ParseFacts.

Variable read_table : string -> result DataFrame.

(** [parse] reads the file only through its text without percent signs. *)
Lemma parse_existing (fs : FileSystem) (filename content : string) (self : Grains.t) :
  fs filename = Some content ->
  Grains.parse read_table fs filename self
  = (let text := Str.replace "%" "" content in
     table <~ lift (read_table text) ;;
     Grains.read_header filename (Grains.header_of text) >>
     assign (mapM Grain_.of_row table) Grains.set_grains >>
     Grains.verify)%py self.
Proof.
  intros H. unfold Grains.parse, isfile, open_read. rewrite H. reflexivity.
Qed.

(** The first statement of [parse]: the test that the file exists. *)
Lemma parse_absent (fs : FileSystem) (filename : string) (self : Grains.t) :
  isfile fs filename = false ->
  Grains.parse read_table fs filename self
  = (self, Raise (IOError (filename ++ " was not found."))).
Proof. intros H. unfold Grains.parse. rewrite H. reflexivity. Qed.

(** C8: when the path names no file, [parse] raises the not-found
    [IOError] whatever the table reader would do, and leaves the
    instance as it was. *)
Theorem parse_missing_file (fs : FileSystem) (filename : string) (self : Grains.t) :
  fs filename = None ->
  Grains.parse read_table fs filename self
  = (self, Raise (IOError (filename ++ " was not found."))).
Proof.
  intros H. apply parse_absent. unfold isfile. rewrite H. reflexivity.
Qed.

End ParseFacts.

Lemma parse_missing_file_witness :
  Fixture.disk "g.csv" Fixture.minimal "h.csv" = None
  /\ Grains.parse Fixture.read_table (Fixture.disk "g.csv" Fixture.minimal) "h.csv"
       Grains.init
     = (Grains.init, Raise (IOError "h.csv was not found.")).
Proof.
  split.
  - reflexivity.
  - apply (parse_missing_file Fixture.read_table
             (Fixture.disk "g.csv" Fixture.minimal) "h.csv" Grains.init).
    reflexivity.
Defined.

(** The file with percent signs inside its numbers parses, and to the
    instance of the minimal file. *)
Example noisy_file_parses :
  Grains.parse Fixture.read_table (Fixture.disk "g.csv" Fixture.noisy) "g.csv" Grains.init
  = Grains.parse Fixture.read_table (Fixture.disk "g.csv" Fixture.minimal) "g.csv"
      Grains.init
  /\ snd (Grains.parse Fixture.read_table (Fixture.disk "g.csv" Fixture.noisy) "g.csv"
            Grains.init) = Ok tt.
Proof. split; vm_compute; reflexivity. Qed.

(** ** [LatticeParameters_]: the defaults *)

Section Defaults.

Import LatticeParameters_.

(** A setter leaves the other attributes as they are. *)
Lemma set_a_spec (value : pyval) (self : t) (y : float) :
  Num.float_ value = Ok y ->
  set_a value self
  = Ok (mk (Some y) (b_ self) (c_ self) (alpha_ self) (beta_ self) (gamma_ self)).
Proof. intros H. unfold set_a. rewrite H. reflexivity. Qed.

Lemma set_alpha_spec (value : pyval) (self : t) (y : float) :
  Num.float_ value = Ok y ->
  set_alpha value self
  = Ok (mk (a_ self) (b_ self) (c_ self) (Some y) (beta_ self) (gamma_ self)).
Proof. intros H. unfold set_alpha. rewrite H. reflexivity. Qed.

(** C5: with [a] set and [b] unset, reading [b] gives the value of [a];
    after [a] is set again, [b] is still unset and reading it gives the
    new value of [a].  The same for [c] after [a], and for [beta] and
    [gamma] after [alpha]. *)
Theorem unset_fields_track_source (self : t) (value : pyval) (x y : float) :
  (a_ self = Some x -> Num.float_ value = Ok y ->
   exists self', set_a value self = Ok self' /\ a self' = PFloat y /\
     (b_ self = None -> b self = PFloat x /\ b_ self' = None /\ b self' = PFloat y) /\
     (c_ self = None -> c self = PFloat x /\ c_ self' = None /\ c self' = PFloat y))
  /\
  (alpha_ self = Some x -> Num.float_ value = Ok y ->
   exists self', set_alpha value self = Ok self' /\ alpha self' = PFloat y /\
     (beta_ self = None ->
      beta self = PFloat x /\ beta_ self' = None /\ beta self' = PFloat y) /\
     (gamma_ self = None ->
      gamma self = PFloat x /\ gamma_ self' = None /\ gamma self' = PFloat y)).
Proof.
  split; intros Hx Hy.
  - eexists. split; [apply set_a_spec; exact Hy |].
    unfold b, c, a, getattr; simpl. rewrite Hx.
    split; [reflexivity |].
    split; intros Hu; rewrite Hu; repeat split; reflexivity.
  - eexists. split; [apply set_alpha_spec; exact Hy |].
    unfold beta, gamma, alpha, getattr; simpl. rewrite Hx.
    split; [reflexivity |].
    split; intros Hu; rewrite Hu; repeat split; reflexivity.
Qed.

(** C10: when [a] was never set, reading [a] gives [None] and raises
    nothing, and so do the reads of an unset [b] and of an unset [c];
    the same for [alpha] with [beta] and [gamma]. *)
Theorem unset_source_reads_none (self : t) :
  (a_ self = None ->
   a self = PNone /\ (b_ self = None -> b self = PNone)
   /\ (c_ self = None -> c self = PNone))
  /\
  (alpha_ self = None ->
   alpha self = PNone /\ (beta_ self = None -> beta self = PNone)
   /\ (gamma_ self = None -> gamma self = PNone)).
Proof.
  split; intros H.
  - unfold b, c, a, getattr. rewrite H.
    repeat split; intros H'; rewrite H'; reflexivity.
  - unfold beta, gamma, alpha, getattr. rewrite H.
    repeat split; intros H'; rewrite H'; reflexivity.
Qed.

(** The constructor sets the attributes it is given and no other. *)
Lemma init_field_a_ (key : string) (set : pyval -> t -> result t)
    (kwds : kwargs) (self self' : t) :
  (forall v s s', set v s = Ok s' -> a_ s' = a_ s) ->
  init_field key set kwds self = Ok self' -> a_ self' = a_ self.
Proof.
  intros Hset. unfold init_field. destruct (lookup key kwds) as [v |]; intros H.
  - apply (Hset _ _ _ H).
  - inversion H. reflexivity.
Qed.

Lemma init_without_a (kwds : kwargs) (self : t) :
  lookup "a" kwds = None -> init kwds = Ok self -> a_ self = None.
Proof.
  intros Ha. unfold init.
  assert (E1 : init_field "a" set_a kwds empty = Ok empty)
    by (unfold init_field; rewrite Ha; reflexivity).
  rewrite E1. simpl.
  destruct (init_field "b" set_b kwds empty) as [s2 |] eqn:E2; simpl; [| discriminate].
  destruct (init_field "c" set_c kwds s2) as [s3 |] eqn:E3; simpl; [| discriminate].
  destruct (init_field "alpha" set_alpha kwds s3) as [s4 |] eqn:E4; simpl; [| discriminate].
  destruct (init_field "beta" set_beta kwds s4) as [s5 |] eqn:E5; simpl; [| discriminate].
  intros E6.
  assert (Hkeep : forall set : pyval -> t -> result t,
             In set [set_b; set_c; set_alpha; set_beta; set_gamma] ->
             forall v s s', set v s = Ok s' -> a_ s' = a_ s).
  { intros set Hin v s s' H. simpl in Hin.
    repeat (destruct Hin as [<- | Hin]);
      try (unfold set_b, set_c, set_alpha, set_beta, set_gamma in H;
           destruct (Num.float_ v); simpl in H; inversion H; reflexivity).
    contradiction. }
  rewrite (init_field_a_ _ _ _ _ _ (Hkeep set_gamma ltac:(simpl; tauto)) E6).
  rewrite (init_field_a_ _ _ _ _ _ (Hkeep set_beta ltac:(simpl; tauto)) E5).
  rewrite (init_field_a_ _ _ _ _ _ (Hkeep set_alpha ltac:(simpl; tauto)) E4).
  rewrite (init_field_a_ _ _ _ _ _ (Hkeep set_c ltac:(simpl; tauto)) E3).
  rewrite (init_field_a_ _ _ _ _ _ (Hkeep set_b ltac:(simpl; tauto)) E2).
  reflexivity.
Qed.

End Defaults.

Example cubic_constructed :
  LatticeParameters_.init [("a", PStr "4.5"); ("alpha", PInt 90)] = Ok cubic.
Proof. vm_compute. reflexivity. Qed.

Lemma unset_fields_track_source_witness :
  (LatticeParameters_.a_ cubic = Some 4.5%float
   /\ Num.float_ (PStr "3.25") = Ok 3.25%float
   /\ exists self',
       LatticeParameters_.set_a (PStr "3.25") cubic = Ok self'
       /\ LatticeParameters_.b cubic = PFloat 4.5
       /\ LatticeParameters_.b self' = PFloat 3.25
       /\ LatticeParameters_.c self' = PFloat 3.25)
  /\
  (LatticeParameters_.alpha_ cubic = Some 90%float
   /\ Num.float_ (PInt 60) = Ok 60%float
   /\ exists self',
       LatticeParameters_.set_alpha (PInt 60) cubic = Ok self'
       /\ LatticeParameters_.beta cubic = PFloat 90
       /\ LatticeParameters_.beta self' = PFloat 60
       /\ LatticeParameters_.gamma self' = PFloat 60).
Proof.
  split.
  - split; [reflexivity | split; [vm_compute; reflexivity |]].
    destruct (unset_fields_track_source cubic (PStr "3.25") 4.5 3.25) as [H _].
    destruct H as [self' [Hset [_ [Hb Hc]]]];
      [reflexivity | vm_compute; reflexivity |].
    exists self'. split; [exact Hset |].
    destruct (Hb eq_refl) as [Hb0 [_ Hb1]]. destruct (Hc eq_refl) as [_ [_ Hc1]].
    repeat split; assumption.
  - split; [reflexivity | split; [vm_compute; reflexivity |]].
    destruct (unset_fields_track_source cubic (PInt 60) 90 60) as [_ H].
    destruct H as [self' [Hset [_ [Hb Hc]]]];
      [reflexivity | vm_compute; reflexivity |].
    exists self'. split; [exact Hset |].
    destruct (Hb eq_refl) as [Hb0 [_ Hb1]]. destruct (Hc eq_refl) as [_ [_ Hc1]].
    repeat split; assumption.
Defined.

Lemma unset_source_reads_none_witness :
  LatticeParameters_.a_ LatticeParameters_.empty = None
  /\ LatticeParameters_.alpha_ LatticeParameters_.empty = None
  /\ LatticeParameters_.a LatticeParameters_.empty = PNone
  /\ LatticeParameters_.b LatticeParameters_.empty = PNone
  /\ LatticeParameters_.c LatticeParameters_.empty = PNone
  /\ LatticeParameters_.alpha LatticeParameters_.empty = PNone
  /\ LatticeParameters_.beta LatticeParameters_.empty = PNone
  /\ LatticeParameters_.gamma LatticeParameters_.empty = PNone.
Proof.
  destruct (unset_source_reads_none LatticeParameters_.empty) as [Ha Hal].
  destruct (Ha eq_refl) as [H1 [H2 H3]]. destruct (Hal eq_refl) as [H4 [H5 H6]].
  repeat split; auto.
Defined.

(** ** [LatticeParameters_]: equality *)

(** C9, at the failing inputs: with [a] unset on both sides the
    comparison does not return false, it raises the [TypeError] of
    [numpy.isclose] on [None]; and the cubic lattice of the constructor's
    docstring, [LatticeParameters(a=4.09)], compared with itself raises
    the same [TypeError] at [alpha], after the tests of [a], [b] and [c]
    have passed. *)
Lemma lattice_eq_unset_raises :
  LatticeParameters_.a LatticeParameters_.empty = PNone
  /\ LatticeParameters_.eq LatticeParameters_.empty LatticeParameters_.empty
     = Raise TypeError
  /\ LatticeParameters_.eq LatticeParameters_.empty LatticeParameters_.empty
     <> Ok false
  /\ LatticeParameters_.init [("a", PFloat (Num.float_of_decimal false 409 (-2)))]
     = Ok docstring_cubic
  /\ Np.isclose (LatticeParameters_.a docstring_cubic)
       (LatticeParameters_.a docstring_cubic) = Ok true
  /\ LatticeParameters_.eq docstring_cubic docstring_cubic = Raise TypeError
  /\ LatticeParameters_.eq docstring_cubic docstring_cubic <> Ok false.
Proof.
  split; [reflexivity | split; [reflexivity |]].
  split; [vm_compute; discriminate |].
  split; [vm_compute; reflexivity |].
  split; [vm_compute; reflexivity |].
  split; [vm_compute; reflexivity |].
  vm_compute. discriminate.
Qed.

(** ** [Grain_.from_Series]: the tensors *)

Section Rows.

Variable series : Series.

(** Reading a list of columns that are all present gives their values in
    the order of the list. *)
Lemma mapM_getitem (keys : list string) :
  (forall k, In k keys -> exists v, getitem k series = Ok v) ->
  exists vs,
    mapM (fun k => getitem k series) keys = Ok vs
    /\ List.length vs = List.length keys
    /\ forall n k v, nth_error keys n = Some k -> getitem k series = Ok v ->
                     nth_error vs n = Some v.
Proof.
  induction keys as [| k0 keys IH]; intros Hall.
  - exists []. repeat split; try reflexivity.
    intros [| n] k v H; discriminate H.
  - destruct (Hall k0 (or_introl eq_refl)) as [v0 Hv0].
    destruct IH as [vs [Hvs [Hlen Hnth]]].
    { intros k Hk. apply Hall. right. exact Hk. }
    exists (v0 :: vs). simpl. rewrite Hv0, Hvs. repeat split.
    + simpl. rewrite Hlen. reflexivity.
    + intros [| n] k v Hk Hv; simpl in Hk |- *.
      * inversion Hk; subst. rewrite Hv0 in Hv. inversion Hv. reflexivity.
      * apply (Hnth n k v Hk Hv).
Qed.

(** Nine columns named after their row and column give a 3 by 3 array
    whose element [i][j] is the value of the column of row [i] and column
    [j]. *)
Lemma tensor_row_major (prefix : string) (cols : list string) :
  cols = [Grain_.column prefix 0 0; Grain_.column prefix 0 1; Grain_.column prefix 0 2;
          Grain_.column prefix 1 0; Grain_.column prefix 1 1; Grain_.column prefix 1 2;
          Grain_.column prefix 2 0; Grain_.column prefix 2 1; Grain_.column prefix 2 2] ->
  (forall k, In k cols -> exists v, getitem k series = Ok v) ->
  exists o,
    (v <- getitems_values cols series ;; Np.reshape [3; 3]%nat v)%py = Ok o
    /\ Np.shape o = [3; 3]%nat
    /\ forall i j v, (i < 3)%nat -> (j < 3)%nat ->
         getitem (Grain_.column prefix i j) series = Ok v -> Np.item2 o i j = Some v.
Proof.
  intros Hcols Hall.
  destruct (mapM_getitem cols Hall) as [vs [Hvs [Hlen Hnth]]].
  exists (Np.mk_ndarray [3; 3]%nat vs).
  unfold getitems_values. rewrite Hvs. simpl.
  unfold Np.reshape. simpl. rewrite Hlen, Hcols. simpl.
  repeat split.
  intros i j v Hi Hj Hv. unfold Np.item2. cbn [Np.shape Np.data].
  assert (Hi' : (i = 0 \/ i = 1 \/ i = 2)%nat) by lia.
  assert (Hj' : (j = 0 \/ j = 1 \/ j = 2)%nat) by lia.
  destruct Hi' as [-> | [-> | ->]]; destruct Hj' as [-> | [-> | ->]];
    cbn [Nat.ltb Nat.leb andb];
    (eapply Hnth; [rewrite Hcols; reflexivity | exact Hv]).
Qed.

(** C6: for a row that has every required column, [from_Series] stores a
    3 by 3 orientation filled in row-major order: element [i][j] is the
    value of column O(i+1)(j+1).  When moreover [float()] accepts the
    lattice columns and [int()] the phase number, [from_Series] returns and
    has stored eFab and eKen in the same way. *)
Theorem from_Series_row_major (g : Grain_.t) :
  (forall k, In k Grain_.required_columns -> exists v, getitem k series = Ok v) ->
  exists o,
    Grain_.orientation (fst (Grain_.from_Series series g)) = Some o
    /\ Np.shape o = [3; 3]%nat
    /\ (forall i j v, (i < 3)%nat -> (j < 3)%nat ->
          getitem (Grain_.column "O" i j) series = Ok v -> Np.item2 o i j = Some v)
    /\ ((exists lp, Grain_.lattice_of series = Ok lp) ->
        (exists v z, getitem "PhaseNr" series = Ok v /\ Num.int_ v = Ok z) ->
        exists g' f k,
          Grain_.from_Series series g = (g', Ok tt)
          /\ Grain_.strainFab g' = Some f /\ Np.shape f = [3; 3]%nat
          /\ Grain_.strainKen g' = Some k /\ Np.shape k = [3; 3]%nat
          /\ forall i j v, (i < 3)%nat -> (j < 3)%nat ->
               (getitem (Grain_.column "eFab" i j) series = Ok v ->
                Np.item2 f i j = Some v)
               /\ (getitem (Grain_.column "eKen" i j) series = Ok v ->
                   Np.item2 k i j = Some v)).
Proof.
  intros Hall.
  assert (Hsub : forall cols, incl cols Grain_.required_columns ->
                   forall k, In k cols -> exists v, getitem k series = Ok v).
  { intros cols Hincl k Hk. apply Hall, Hincl, Hk. }
  assert (Hin : forall k, existsb (String.eqb k) Grain_.required_columns = true ->
                  exists v, getitem k series = Ok v).
  { intros k Hk. apply Hall. apply existsb_exists in Hk.
    destruct Hk as [k' [Hk' E]]. apply String.eqb_eq in E. subst. exact Hk'. }
  destruct (tensor_row_major "O" Grain_.orientation_columns eq_refl) as [o [Ho [So Io]]].
  { apply Hsub. intros k Hk. unfold Grain_.required_columns.
    apply in_or_app. right. apply in_or_app. left. exact Hk. }
  destruct (Hin "GrainID" eq_refl) as [vid Hid].
  exists o. split; [| split; [exact So | split; [exact Io |]]].
  - unfold Grain_.from_Series, mbind, assign. rewrite Hid, Ho.
    repeat match goal with
           | |- context [match ?r with Ok _ => _ | Raise _ => _ end] =>
               destruct r; cbn [fst]
           end; reflexivity.
  - intros [lp Hlp] [pv [pz [Hpv Hpz]]].
    destruct (tensor_row_major "eFab" Grain_.strainFab_columns eq_refl)
      as [f [Hf [Sf If]]].
    { apply Hsub. intros k Hk. unfold Grain_.required_columns.
      do 4 (apply in_or_app; right). apply in_or_app. left. exact Hk. }
    destruct (tensor_row_major "eKen" Grain_.strainKen_columns eq_refl)
      as [k [Hk [Sk Ik]]].
    { apply Hsub. intros c Hc. unfold Grain_.required_columns.
      do 5 (apply in_or_app; right). apply in_or_app. left. exact Hc. }
    destruct (mapM_getitem Grain_.location_columns) as [xyz [Hxyz _]].
    { apply Hsub. intros c Hc. unfold Grain_.required_columns.
      do 2 (apply in_or_app; right). apply in_or_app. left. exact Hc. }
    destruct (Hin "DiffPos" eq_refl) as [vpos Hpos].
    destruct (Hin "DiffOme" eq_refl) as [vome Home].
    destruct (Hin "DiffAngle" eq_refl) as [vang Hang].
    destruct (Hin "GrainRadius" eq_refl) as [vrad Hrad].
    destruct (Hin "Confidence" eq_refl) as [vconf Hconf].
    destruct (Hin "RMSErrorStrain" eq_refl) as [vrms Hrms].
    eexists. exists f, k.
    split.
    + unfold Grain_.from_Series, mbind, assign.
      rewrite Hid, Ho. unfold getitems_values at 1. rewrite Hxyz. cbn [rbind].
      rewrite Hlp, Hpos, Home, Hang, Hrad, Hconf, Hf, Hk, Hrms, Hpv.
      cbn [rbind]. rewrite Hpz. cbn [rbind]. reflexivity.
    + cbn. repeat split; auto.
Qed.

End Rows.

Lemma from_Series_row_major_witness :
  exists o g' f,
    Grain_.orientation (fst (Grain_.from_Series Fixture.numbered_row Grain_.init))
    = Some o
    /\ Np.item2 o 0 1 = Some (PFloat 2)
    /\ Np.item2 o 1 0 = Some (PFloat 4)
    /\ Grain_.from_Series Fixture.numbered_row Grain_.init = (g', Ok tt)
    /\ Grain_.strainFab g' = Some f
    /\ Np.item2 f 0 1 = Some (PFloat 12).
Proof.
  destruct (from_Series_row_major Fixture.numbered_row Grain_.init)
    as [o [Ho [_ [Hitems Hrest]]]].
  - intros c Hc.
    repeat (destruct Hc as [<- | Hc]; [eexists; vm_compute; reflexivity |]).
    contradiction.
  - destruct Hrest as [g' [f [k [Hrun [Hf [_ [_ [_ Hstrain]]]]]]]].
    + eexists. vm_compute. reflexivity.
    + exists (PFloat 0), 0. split; vm_compute; reflexivity.
    + exists o, g', f. repeat split; try assumption.
      * apply (Hitems 0 1 (PFloat 2))%nat; [lia | lia | vm_compute; reflexivity].
      * apply (Hitems 1 0 (PFloat 4))%nat; [lia | lia | vm_compute; reflexivity].
      * apply (Hstrain 0 1 (PFloat 12))%nat; [lia | lia | vm_compute; reflexivity].
Defined.

(** ** [Grain_]: equality *)

(** The comparison reads neither [confidence] nor [rmsErrorStrain]. *)
Lemma eq_blind_to_confidence (g h : Grain_.t) (v w : pyval) :
  Grain_.eq (Grain_.set_confidence v g) (Grain_.set_confidence w h) = Grain_.eq g h
  /\ Grain_.eq (Grain_.set_rmsErrorStrain v g) (Grain_.set_rmsErrorStrain w h)
     = Grain_.eq g h.
Proof. split; reflexivity. Qed.

(** C4, at the failing input: two populated grains that differ in
    [confidence] (0.714286 and 0.25) and in [rmsErrorStrain] (153.000403
    and 0.5), neither pair close, compare equal. *)
Theorem eq_ignores_confidence :
  Grain_.of_row sample_row = Ok sample_grain
  /\ Np.isclose (Grain_.confidence sample_grain) (Grain_.confidence other_confidence)
     = Ok false
  /\ Np.isclose (Grain_.rmsErrorStrain sample_grain)
       (Grain_.rmsErrorStrain other_confidence) = Ok false
  /\ Grain_.eq sample_grain other_confidence = Ok true.
Proof. repeat split; vm_compute; reflexivity. Qed.

(** ** [Grains.parse]: the header *)

Section Header.

Variable filename : string.
Variable header : list string.

Ltac next_statement :=
  match goal with
  | |- context [match ?r with Ok _ => _ | Raise _ => _ end] =>
      destruct r eqn:?; cbn [fst snd]
  end.

Ltac reached k :=
  exists k; unfold assigned_before, untouched_from; cbn;
  repeat split; intros; solve [lia | discriminate | reflexivity].

(** [read_header] stores the header attributes in order; when it raises,
    the attributes stored so far stay and the others are untouched. *)
Lemma read_header_progress (s0 s : Grains.t) (r : result unit) :
  Grains.read_header filename header s0 = (s, r) ->
  (r = Ok tt /\ assigned_before 7 s /\ untouched_from 7 s0 s)
  \/ (exists e k, r = Raise e /\ (k <= 6)%nat
                  /\ assigned_before k s /\ untouched_from k s0 s).
Proof.
  unfold Grains.read_header, mbind, lift, assign, expect_key.
  repeat next_statement;
    intros H; inversion H; subst; clear H;
    first [ left; split; [reflexivity |];
            unfold assigned_before, untouched_from; cbn;
            repeat split; intros; solve [lia | discriminate | reflexivity]
          | right; eexists; first
              [ reached 0%nat | reached 1%nat | reached 2%nat | reached 3%nat
              | reached 4%nat | reached 5%nat | reached 6%nat ] ].
Qed.

End Header.

(** ** [Grains.parse]: the count of grains and the state after a failure *)

Lemma verify_state (s s' : Grains.t) (r : result unit) :
  Grains.verify s = (s', r) -> s' = s.
Proof.
  unfold Grains.verify. destruct (Grains.count_differs s); intros H; inversion H;
    reflexivity.
Qed.

Lemma verify_ok (s s' : Grains.t) (u : unit) :
  Grains.verify s = (s', Ok u) ->
  Grains.NumGrains s' = Some (Z.of_nat (List.length (Grains.grains s'))).
Proof.
  unfold Grains.verify, Grains.count_differs.
  destruct (Grains.NumGrains s) as [n |] eqn:En.
  - destruct (Z.of_nat (List.length (Grains.grains s)) =? n) eqn:E; cbn;
      intros H; inversion H; subst.
    apply Z.eqb_eq in E. rewrite En, E. reflexivity.
  - intros H. discriminate H.
Qed.

Section Outcome.

Variable read_table : string -> result DataFrame.
Variable fs : FileSystem.
Variable filename : string.

(** C2: when [parse] returns, the number of grains read is the declared
    [NumGrains]; and once the table and the header are read and every row
    gives a grain, [parse] returns if the two counts agree and otherwise
    raises an [IOError] whose message names the declared count and the
    count read. *)
Theorem parse_checks_count (self : Grains.t) :
  (forall self',
      Grains.parse read_table fs filename self = (self', Ok tt) ->
      Grains.NumGrains self'
      = Some (Z.of_nat (List.length (Grains.grains self'))))
  /\
  (forall content table self1 gs,
      fs filename = Some content ->
      read_table (Str.replace "%" "" content) = Ok table ->
      Grains.read_header filename
        (Grains.header_of (Str.replace "%" "" content)) self = (self1, Ok tt) ->
      mapM Grain_.of_row table = Ok gs ->
      exists n,
        Grains.NumGrains self1 = Some n
        /\ Grains.parse read_table fs filename self
           = (Grains.set_grains gs self1,
              if Z.of_nat (List.length gs) =? n then Ok tt
              else Raise (IOError
                            (Str.of_int n ++ " grains were expected, but only "
                             ++ Str.of_int (Z.of_nat (List.length gs))
                             ++ " were read.")%string))).
Proof.
  split.
  - intros self' H.
    destruct (fs filename) as [content |] eqn:Efs.
    + rewrite (parse_existing _ _ _ content _ Efs) in H. cbv zeta in H.
      apply mbind_ok_inv in H. destruct H as [table [s1 [_ H]]].
      apply mbind_ok_inv in H. destruct H as [u1 [s2 [_ H]]].
      apply mbind_ok_inv in H. destruct H as [u2 [s3 [_ H]]].
      destruct u2. apply (verify_ok _ _ _ H).
    + rewrite parse_absent in H by (unfold isfile; rewrite Efs; reflexivity). discriminate H.
  - intros content table self1 gs Efs Etable Ehdr Erows.
    destruct (read_header_progress _ _ _ _ _ Ehdr) as [[_ [Ha _]] | [e [k [He _]]]];
      [| discriminate He].
    destruct (Grains.numGrains_ self1) as [n |] eqn:En;
      [| destruct Ha as [Ha _]; exfalso; apply Ha; [lia | exact En]].
    exists n. split; [exact En |].
    rewrite (parse_existing _ _ _ content _ Efs). cbv zeta.
    unfold mbind at 1. unfold lift at 1. rewrite Etable.
    unfold mbind at 1. rewrite Ehdr.
    unfold mbind, assign. rewrite Erows.
    unfold Grains.verify, Grains.count_differs, Grains.NumGrains. cbn.
    rewrite En. destruct (Z.of_nat (List.length gs) =? n); reflexivity.
Qed.

End Outcome.

Lemma parse_checks_count_witness :
  Grains.NumGrains
    (fst (Grains.parse Fixture.read_table (Fixture.disk "g.csv" Fixture.minimal)
            "g.csv" Grains.init)) = Some 1
  /\ snd (Grains.parse Fixture.read_table (Fixture.disk "g.csv" Fixture.two_declared)
            "g.csv" Grains.init)
     = Raise (IOError "2 grains were expected, but only 1 were read.").
Proof.
  split.
  - destruct (parse_checks_count Fixture.read_table
                (Fixture.disk "g.csv" Fixture.minimal) "g.csv" Grains.init) as [Hok _].
    rewrite (Hok (fst (Grains.parse Fixture.read_table
                         (Fixture.disk "g.csv" Fixture.minimal) "g.csv" Grains.init)))
      by (vm_compute; reflexivity).
    vm_compute. reflexivity.
  - destruct (parse_checks_count Fixture.read_table
                (Fixture.disk "g.csv" Fixture.two_declared) "g.csv" Grains.init)
      as [_ Hcount].
    edestruct (Hcount Fixture.two_declared) as [n [Hn Hparse]];
      [ reflexivity | vm_compute; reflexivity | vm_compute; reflexivity
      | vm_compute; reflexivity | ].
    rewrite Hparse. vm_compute in Hn. inversion Hn; subst n.
    vm_compute. reflexivity.
Defined.

(** C3, the claim as stated fails: a file whose second header line has no
    value makes [parse] raise a [ValueError] with [numGrains_] already
    stored, and a file that declares two grains and holds one makes it
    raise the integrity error with every attribute stored. *)
Lemma failed_parse_leaves_fields :
  (exists self',
      Grains.parse Fixture.read_table (Fixture.disk "g.csv" Fixture.no_beam_center)
        "g.csv" Grains.init = (self', Raise ValueError)
      /\ Grains.numGrains_ self' = Some 1
      /\ Grains.beamCenter_ self' = None
      /\ self' <> Grains.init)
  /\
  (exists self',
      Grains.parse Fixture.read_table (Fixture.disk "g.csv" Fixture.two_declared)
        "g.csv" Grains.init
      = (self', Raise (IOError "2 grains were expected, but only 1 were read."))
      /\ Grains.numGrains_ self' = Some 2
      /\ Grains.spaceGroup_ self' = Some 194
      /\ List.length (Grains.grains self') = 1%nat
      /\ self' <> Grains.init).
Proof.
  split; eexists; (split; [vm_compute; reflexivity |]);
    repeat split; try reflexivity; intros H; discriminate H.
Qed.

(** ** [Grains.parse]: the header keys *)

(** The test of a header key raises nothing, whatever the key. *)
Lemma expect_key_never_raises (key expected filename : string) :
  expect_key key expected filename = Ok tt.
Proof. reflexivity. Qed.

(** C1, at the failing input: the minimal file with the key of line 1
    misspelled ([NumGrain]) parses without any exception, to the instance
    that the well-formed file gives. *)
Theorem misspelled_key_accepted :
  Grains.parse Fixture.read_table (Fixture.disk "g.csv" Fixture.misspelled)
    "g.csv" Grains.init
  = Grains.parse Fixture.read_table (Fixture.disk "g.csv" Fixture.minimal)
      "g.csv" Grains.init
  /\ snd (Grains.parse Fixture.read_table (Fixture.disk "g.csv" Fixture.misspelled)
            "g.csv" Grains.init) = Ok tt
  /\ Grains.NumGrains
       (fst (Grains.parse Fixture.read_table (Fixture.disk "g.csv" Fixture.misspelled)
               "g.csv" Grains.init)) = Some 1.
Proof. repeat split; vm_compute; reflexivity. Qed.

(** * Further properties *)

(** ** [LatticeParameters_]: the constructor and the setters *)

Section Constructor.

Import LatticeParameters_.

Variable kwds : kwargs.

Ltac keyword k :=
  destruct (lookup k kwds) as [? |] eqn:?;
  [ match goal with
    | |- context [Num.float_ ?v] => destruct (Num.float_ v) as [? | ?] eqn:?
    end;
    cbn [rbind];
    [ | split;
        [ intros H; discriminate H
        | intros [H _]; decompose [and] H;
          repeat match goal with
                 | E : exists _, _ |- _ => destruct E
                 end;
          congruence ] ]
  | cbn [rbind] ].

(** The six keyword tests of the constructor, one after the other. *)
Lemma init_spec (self : t) :
  init kwds = Ok self
  <->
  (convertible (lookup "a" kwds) /\ convertible (lookup "b" kwds)
   /\ convertible (lookup "c" kwds) /\ convertible (lookup "alpha" kwds)
   /\ convertible (lookup "beta" kwds) /\ convertible (lookup "gamma" kwds))
  /\ self = mk (converted (lookup "a" kwds)) (converted (lookup "b" kwds))
              (converted (lookup "c" kwds)) (converted (lookup "alpha" kwds))
              (converted (lookup "beta" kwds)) (converted (lookup "gamma" kwds)).
Proof.
  unfold init, init_field, set_a, set_b, set_c, set_alpha, set_beta, set_gamma,
    convertible, converted.
  keyword "a"; keyword "b"; keyword "c"; keyword "alpha"; keyword "beta";
    keyword "gamma";
    (split;
     [ intros H; inversion H; split; [repeat split; eauto | reflexivity]
     | intros [_ ->]; reflexivity ]).
Qed.

(** X1: the constructor returns exactly when [float()] accepts every keyword
    argument it is given among [a], [b], [c], [alpha], [beta], [gamma];
    the instance then holds [float] of each given value and nothing for
    the keywords left out. *)
Theorem init_stores_given (self : t) :
  init kwds = Ok self
  <->
  (convertible (lookup "a" kwds) /\ convertible (lookup "b" kwds)
   /\ convertible (lookup "c" kwds) /\ convertible (lookup "alpha" kwds)
   /\ convertible (lookup "beta" kwds) /\ convertible (lookup "gamma" kwds))
  /\ self = mk (converted (lookup "a" kwds)) (converted (lookup "b" kwds))
              (converted (lookup "c" kwds)) (converted (lookup "alpha" kwds))
              (converted (lookup "beta" kwds)) (converted (lookup "gamma" kwds)).
Proof. exact (init_spec self). Qed.

End Constructor.

Section Setters.

Import LatticeParameters_.

(** X2: once [b] is set it no longer follows [a]: after [self.b = v] and then
    [self.a = w], [b] reads [float(v)] and [a] reads [float(w)]; an unset
    [c] follows the new [a].  The same for [beta] and [gamma] beside
    [alpha]. *)
Theorem explicit_value_wins (self : t) (v w : pyval) (fv fw : float) :
  Num.float_ v = Ok fv -> Num.float_ w = Ok fw ->
  (exists s1 s2,
      set_b v self = Ok s1 /\ set_a w s1 = Ok s2
      /\ b s1 = PFloat fv /\ b s2 = PFloat fv /\ a s2 = PFloat fw
      /\ (c_ self = None -> c s2 = PFloat fw))
  /\
  (exists s1 s2,
      set_beta v self = Ok s1 /\ set_alpha w s1 = Ok s2
      /\ beta s1 = PFloat fv /\ beta s2 = PFloat fv /\ alpha s2 = PFloat fw
      /\ (gamma_ self = None -> gamma s2 = PFloat fw)).
Proof.
  intros Hv Hw. split.
  - unfold set_b, set_a. rewrite Hv. cbn [rbind].
    eexists. eexists. split; [reflexivity |]. rewrite Hw. cbn [rbind].
    split; [reflexivity |]. unfold b, c, a, getattr; cbn.
    repeat split. intros Hc. rewrite Hc. reflexivity.
  - unfold set_beta, set_alpha. rewrite Hv. cbn [rbind].
    eexists. eexists. split; [reflexivity |]. rewrite Hw. cbn [rbind].
    split; [reflexivity |]. unfold beta, gamma, alpha, getattr; cbn.
    repeat split. intros Hc. rewrite Hc. reflexivity.
Qed.

(** X3: two instances with all six attributes set always compare to a
    boolean, never to an exception, and to true exactly when each of the
    six pairs passes the closeness test. *)
Theorem full_lattices_compare (l r : t) :
  fully_set l -> fully_set r ->
  exists res,
    eq l r = Ok res
    /\ (res = true <->
        Np.isclose (a l) (a r) = Ok true /\ Np.isclose (b l) (b r) = Ok true
        /\ Np.isclose (c l) (c r) = Ok true
        /\ Np.isclose (alpha l) (alpha r) = Ok true
        /\ Np.isclose (beta l) (beta r) = Ok true
        /\ Np.isclose (gamma l) (gamma r) = Ok true).
Proof.
  unfold fully_set.
  destruct l as [[la |] [lb |] [lc |] [lal |] [lbe |] [lga |]];
    destruct r as [[ra |] [rb |] [rc |] [ral |] [rbe |] [rga |]];
    cbn; intros Hl Hr;
    try (exfalso; decompose [and] Hl; decompose [and] Hr; congruence).
  unfold eq, a, b, c, alpha, beta, gamma, getattr; cbn.
  destruct (Np.isclose_f64 la ra), (Np.isclose_f64 lb rb), (Np.isclose_f64 lc rc),
    (Np.isclose_f64 lal ral), (Np.isclose_f64 lbe rbe), (Np.isclose_f64 lga rga);
    cbn; eexists; (split; [reflexivity |]);
    split; intros H; try reflexivity; try discriminate H;
    try (decompose [and] H; discriminate); repeat split.
Qed.

(** The lattice that [Grains.parse] builds from header line 8 has all six
    attributes set, whatever the six tokens are, as long as the
    constructor returns. *)
Lemma header_lattice_full (parts : list string) (kwds : kwargs) (l : t) :
  unpack6 parts = Ok kwds -> init kwds = Ok l -> fully_set l.
Proof.
  unfold unpack6.
  destruct parts as [| p1 [| p2 [| p3 [| p4 [| p5 [| p6 [| p7 rest]]]]]]];
    intros H; try discriminate H. inversion H; subst kwds. clear H.
  intros Hinit. apply init_spec in Hinit.
  destruct Hinit as [[Ha [Hb [Hc [Hal [Hbe Hga]]]]] ->].
  cbn in Ha, Hb, Hc, Hal, Hbe, Hga.
  destruct Ha as [fa Ha], Hb as [fb Hb], Hc as [fc Hc],
    Hal as [fal Hal], Hbe as [fbe Hbe], Hga as [fga Hga].
  unfold fully_set, converted. cbn [lookup String.eqb Ascii.eqb Bool.eqb a_ b_ c_ alpha_ beta_ gamma_].
  cbn in *. rewrite Ha, Hb, Hc, Hal, Hbe, Hga.
  repeat split; discriminate.
Qed.

End Setters.

Lemma explicit_value_wins_witness :
  exists s1 s2,
    LatticeParameters_.set_b (PStr "3.25") cubic = Ok s1
    /\ LatticeParameters_.set_a (PInt 6) s1 = Ok s2
    /\ LatticeParameters_.b s2 = PFloat 3.25
    /\ LatticeParameters_.a s2 = PFloat 6
    /\ LatticeParameters_.c s2 = PFloat 6.
Proof.
  destruct (explicit_value_wins cubic (PStr "3.25") (PInt 6) 3.25 6)
    as [[s1 [s2 [H1 [H2 [_ [Hb [Ha Hc]]]]]]] _];
    [vm_compute; reflexivity | vm_compute; reflexivity |].
  exists s1, s2. repeat split; try assumption. apply Hc. reflexivity.
Defined.

Lemma full_lattices_compare_witness :
  fully_set hexagonal /\ fully_set stretched
  /\ LatticeParameters_.eq hexagonal stretched = Ok false
  /\ LatticeParameters_.eq hexagonal hexagonal = Ok true.
Proof.
  assert (Hn : fully_set hexagonal) by (unfold fully_set; cbn; repeat split; discriminate).
  assert (Hr : fully_set stretched) by (unfold fully_set; cbn; repeat split; discriminate).
  split; [exact Hn | split; [exact Hr |]].
  split.
  - destruct (full_lattices_compare hexagonal stretched Hn Hr)
      as [res [Hres _]].
    rewrite Hres. vm_compute in Hres. symmetry. exact Hres.
  - destruct (full_lattices_compare hexagonal hexagonal Hn Hn)
      as [res [Hres _]].
    rewrite Hres. vm_compute in Hres. symmetry. exact Hres.
Defined.

(** ** Results in sequence *)

Lemma rbind_ok_inv {A B : Type} (r : result A) (k : A -> result B) (b : B) :
  rbind r k = Ok b -> exists a, r = Ok a /\ k a = Ok b.
Proof.
  destruct r as [a | e]; cbn; intros H; [| discriminate H].
  exists a. split; [reflexivity | exact H].
Qed.

Section MapM.

Context {A B : Type}.
Variable f : A -> result B.

Lemma mapM_ok_nth (l : list A) (ys : list B) :
  mapM f l = Ok ys ->
  List.length ys = List.length l
  /\ forall i x, nth_error l i = Some x ->
                 exists y, nth_error ys i = Some y /\ f x = Ok y.
Proof.
  revert ys. induction l as [| x0 l IH]; cbn; intros ys H.
  - inversion H. split; [reflexivity |]. intros [| i] x Hx; discriminate Hx.
  - destruct (f x0) as [y0 |] eqn:E0; [| discriminate H].
    destruct (mapM f l) as [ys' |] eqn:E; [| discriminate H].
    inversion H; subst ys. destruct (IH ys' eq_refl) as [Hlen Hnth].
    split; [cbn; rewrite Hlen; reflexivity |].
    intros [| i] x Hx; cbn in Hx |- *.
    + inversion Hx; subst. exists y0. split; [reflexivity | exact E0].
    + apply (Hnth i x Hx).
Qed.

Lemma mapM_ok_all (l : list A) (ys : list B) :
  mapM f l = Ok ys -> forall x, In x l -> exists y, f x = Ok y.
Proof.
  intros H x Hx. apply In_nth_error in Hx. destruct Hx as [i Hi].
  destruct (mapM_ok_nth l ys H) as [_ Hnth].
  destruct (Hnth i x Hi) as [y [_ Hy]]. exists y. exact Hy.
Qed.

(** When [mapM] raises, the exception is that of the first element that
    fails. *)
Lemma mapM_raise_first (l : list A) (e : exn) :
  mapM f l = Raise e ->
  exists i x,
    nth_error l i = Some x /\ f x = Raise e
    /\ forall j x', (j < i)%nat -> nth_error l j = Some x' ->
                    exists y, f x' = Ok y.
Proof.
  induction l as [| x0 l IH]; cbn; intros H; [discriminate H |].
  destruct (f x0) as [y0 |] eqn:E0.
  - destruct (mapM f l) as [ys' |] eqn:E; [discriminate H |].
    inversion H; subst. destruct (IH eq_refl) as [i [x [Hi [Hx Hbefore]]]].
    exists (S i), x. split; [exact Hi | split; [exact Hx |]].
    intros [| j] x' Hj Hx'; cbn in Hx'.
    + inversion Hx'; subst. exists y0. exact E0.
    + apply (Hbefore j x'); [lia | exact Hx'].
  - inversion H; subst. exists 0%nat, x0.
    split; [reflexivity | split; [exact E0 |]].
    intros j x' Hj. lia.
Qed.

End MapM.

(** ** [Grain_]: equality, further *)

(** X4: grains with different identifiers compare unequal; no other attribute
    is examined, so the comparison cannot raise, even on grains that are
    not populated. *)
Theorem eq_different_ID (g h : Grain_.t) :
  py_eq (Grain_.ID g) (Grain_.ID h) = false -> Grain_.eq g h = Ok false.
Proof. intros H. unfold Grain_.eq. rewrite H. reflexivity. Qed.

Lemma eq_different_ID_witness :
  py_eq (Grain_.ID sample_grain) (Grain_.ID (Grain_.set_ID (PInt 7) Grain_.init)) = false
  /\ Grain_.eq sample_grain (Grain_.set_ID (PInt 7) Grain_.init) = Ok false.
Proof.
  split; [vm_compute; reflexivity |].
  apply (eq_different_ID sample_grain (Grain_.set_ID (PInt 7) Grain_.init)).
  vm_compute. reflexivity.
Defined.

(** X5: the comparison of grains is not symmetric.  The tolerance of
    [isclose] is relative to its second operand, so a grain at position
    100000 equals the grain at 100001.00001 that differs from it in nothing
    else, and the latter does not equal the former. *)
Theorem eq_not_symmetric :
  Grain_.eq near_position far_position = Ok true
  /\ Grain_.eq far_position near_position = Ok false
  /\ Np.isclose (Grain_.diffPos near_position) (Grain_.diffPos far_position) = Ok true
  /\ Np.isclose (Grain_.diffPos far_position) (Grain_.diffPos near_position) = Ok false.
Proof. repeat split; vm_compute; reflexivity. Qed.

(** ** [Grain_.from_Series]: what it reads and what it stores *)

Section Stored.

Variable series : Series.

Ltac stored H v Hv :=
  apply mbind_ok_inv in H; destruct H as [? [? [Hv H]]];
  apply assign_ok_inv in Hv; destruct Hv as [v [Hv ->]].

(** The thirteen assignments of a call that returns. *)
Lemma from_Series_ok_inv (g g' : Grain_.t) (u : unit) :
  Grain_.from_Series series g = (g', Ok u) ->
  exists vid o loc lp vpos vome vang vrad vconf f k vrms vph,
    getitem "GrainID" series = Ok vid
    /\ (v <- getitems_values Grain_.orientation_columns series ;;
        Np.reshape [3; 3]%nat v)%py = Ok o
    /\ getitems_values Grain_.location_columns series = Ok loc
    /\ Grain_.lattice_of series = Ok lp
    /\ getitem "DiffPos" series = Ok vpos
    /\ getitem "DiffOme" series = Ok vome
    /\ getitem "DiffAngle" series = Ok vang
    /\ getitem "GrainRadius" series = Ok vrad
    /\ getitem "Confidence" series = Ok vconf
    /\ (v <- getitems_values Grain_.strainFab_columns series ;;
        Np.reshape [3; 3]%nat v)%py = Ok f
    /\ (v <- getitems_values Grain_.strainKen_columns series ;;
        Np.reshape [3; 3]%nat v)%py = Ok k
    /\ getitem "RMSErrorStrain" series = Ok vrms
    /\ (v <- getitem "PhaseNr" series ;; z <- Num.int_ v ;; Ok (PInt z))%py = Ok vph
    /\ g' = Grain_.mk vid (Some o) (Some loc) (Some lp) vpos vome vang vrad vconf
              (Some f) (Some k) vrms vph.
Proof.
  unfold Grain_.from_Series. intros H.
  stored H vid Hid. stored H o Ho. stored H loc Hloc. stored H lp Hlp.
  stored H vpos Hpos. stored H vome Home. stored H vang Hang. stored H vrad Hrad.
  stored H vconf Hconf. stored H f Hf. stored H k Hk. stored H vrms Hrms.
  apply assign_ok_inv in H. destruct H as [vph [Hph ->]].
  exists vid, o, loc, lp, vpos, vome, vang, vrad, vconf, f, k, vrms, vph.
  repeat (split; [assumption |]). reflexivity.
Qed.

End Stored.

Section Reads.

Variable series : Series.

Lemma getitems_values_ok_all (cols : list string) (arr : Np.ndarray) :
  getitems_values cols series = Ok arr ->
  Np.shape arr = [List.length cols]
  /\ (forall k, In k cols -> exists v, getitem k series = Ok v)
  /\ forall i k, nth_error cols i = Some k ->
                 exists v, nth_error (Np.data arr) i = Some v /\ getitem k series = Ok v.
Proof.
  unfold getitems_values. intros H.
  destruct (mapM (fun k => getitem k series) cols) as [vs |] eqn:Hvs;
    [| discriminate H].
  inversion H; subst arr. cbn.
  destruct (mapM_ok_nth _ _ _ Hvs) as [Hlen Hnth].
  split; [rewrite Hlen; reflexivity |]. split.
  - apply (mapM_ok_all _ _ _ Hvs).
  - exact Hnth.
Qed.

Lemma tensor_ok_all (cols : list string) (arr : Np.ndarray) :
  (v <- getitems_values cols series ;; Np.reshape [3; 3]%nat v)%py = Ok arr ->
  forall k, In k cols -> exists v, getitem k series = Ok v.
Proof.
  intros H. apply rbind_ok_inv in H. destruct H as [flat [Hflat _]].
  apply (getitems_values_ok_all _ _ Hflat).
Qed.

(** The lattice of a row: the six columns are read and converted. *)
Lemma lattice_of_ok_inv (lp : LatticeParameters_.t) :
  Grain_.lattice_of series = Ok lp ->
  column_float series "a" (LatticeParameters_.a_ lp)
  /\ column_float series "b" (LatticeParameters_.b_ lp)
  /\ column_float series "c" (LatticeParameters_.c_ lp)
  /\ column_float series "alpha" (LatticeParameters_.alpha_ lp)
  /\ column_float series "beta" (LatticeParameters_.beta_ lp)
  /\ column_float series "gamma" (LatticeParameters_.gamma_ lp).
Proof.
  unfold Grain_.lattice_of. intros H.
  apply rbind_ok_inv in H. destruct H as [va [Ha H]].
  apply rbind_ok_inv in H. destruct H as [vb [Hb H]].
  apply rbind_ok_inv in H. destruct H as [vc [Hc H]].
  apply rbind_ok_inv in H. destruct H as [val [Hal H]].
  apply rbind_ok_inv in H. destruct H as [vbe [Hbe H]].
  apply rbind_ok_inv in H. destruct H as [vga [Hga H]].
  apply init_spec in H. destruct H as [[Ca [Cb [Cc [Cal [Cbe Cga]]]]] ->].
  cbn in Ca, Cb, Cc, Cal, Cbe, Cga.
  destruct Ca as [fa Fa], Cb as [fb Fb], Cc as [fc Fc],
    Cal as [fal Fal], Cbe as [fbe Fbe], Cga as [fga Fga].
  unfold column_float. cbn. rewrite Fa, Fb, Fc, Fal, Fbe, Fga.
  repeat split; eexists; eexists; (split; [eassumption |]); split;
    (eassumption || reflexivity).
Qed.

(** X6: [from_Series] returns exactly for the rows that hold every required
    column, with lattice columns that [float()] accepts and a phase
    number that [int()] accepts. *)
Theorem from_Series_returns_iff (g : Grain_.t) :
  (exists g', Grain_.from_Series series g = (g', Ok tt))
  <->
  (forall k, In k Grain_.required_columns -> exists v, getitem k series = Ok v)
  /\ (exists lp, Grain_.lattice_of series = Ok lp)
  /\ (exists v z, getitem "PhaseNr" series = Ok v /\ Num.int_ v = Ok z).
Proof.
  split.
  - intros [g' H]. apply from_Series_ok_inv in H.
    destruct H as [vid [o [loc [lp [vpos [vome [vang [vrad [vconf [f [k [vrms [vph
      [Hid [Ho [Hloc [Hlp [Hpos [Home [Hang [Hrad [Hconf [Hf [Hk [Hrms [Hph _]
      ]]]]]]]]]]]]]]]]]]]]]]]]].
    apply rbind_ok_inv in Hph. destruct Hph as [pv [Hpv Hph]].
    apply rbind_ok_inv in Hph. destruct Hph as [pz [Hpz _]].
    split; [| split; [exists lp; exact Hlp | exists pv, pz; split; assumption]].
    destruct (lattice_of_ok_inv lp Hlp)
      as [[va [? [Ha _]]] [[vb [? [Hb _]]] [[vc [? [Hc _]]]
         [[val [? [Hal _]]] [[vbe [? [Hbe _]]] [vga [? [Hga _]]]]]]]].
    intros c Hc'. unfold Grain_.required_columns in Hc'.
    repeat (apply in_app_or in Hc'; destruct Hc' as [Hc' | Hc']).
    + destruct Hc' as [<- | []]. eauto.
    + apply (tensor_ok_all _ _ Ho c Hc').
    + apply (getitems_values_ok_all _ _ Hloc). exact Hc'.
    + cbn in Hc'. repeat (destruct Hc' as [<- | Hc']; [eauto |]). contradiction.
    + apply (tensor_ok_all _ _ Hf c Hc').
    + apply (tensor_ok_all _ _ Hk c Hc').
    + cbn in Hc'. repeat (destruct Hc' as [<- | Hc']; [eauto |]). contradiction.
  - intros [Hall [[lp Hlp] [pv [pz [Hpv Hpz]]]]].
    assert (Hsub : forall cols, incl cols Grain_.required_columns ->
                     forall k, In k cols -> exists v, getitem k series = Ok v).
    { intros cols Hincl k Hk. apply Hall, Hincl, Hk. }
    assert (Hin : forall k, existsb (String.eqb k) Grain_.required_columns = true ->
                    exists v, getitem k series = Ok v).
    { intros k Hk. apply Hall. apply existsb_exists in Hk.
      destruct Hk as [k' [Hk' E]]. apply String.eqb_eq in E. subst. exact Hk'. }
    destruct (tensor_row_major series "O" Grain_.orientation_columns eq_refl)
      as [o [Ho _]].
    { apply Hsub. intros k Hk. unfold Grain_.required_columns.
      apply in_or_app. right. apply in_or_app. left. exact Hk. }
    destruct (tensor_row_major series "eFab" Grain_.strainFab_columns eq_refl)
      as [f [Hf _]].
    { apply Hsub. intros k Hk. unfold Grain_.required_columns.
      do 4 (apply in_or_app; right). apply in_or_app. left. exact Hk. }
    destruct (tensor_row_major series "eKen" Grain_.strainKen_columns eq_refl)
      as [k [Hk _]].
    { apply Hsub. intros c Hc. unfold Grain_.required_columns.
      do 5 (apply in_or_app; right). apply in_or_app. left. exact Hc. }
    destruct (mapM_getitem series Grain_.location_columns) as [xyz [Hxyz _]].
    { apply Hsub. intros c Hc. unfold Grain_.required_columns.
      do 2 (apply in_or_app; right). apply in_or_app. left. exact Hc. }
    destruct (Hin "GrainID" eq_refl) as [vid Hid].
    destruct (Hin "DiffPos" eq_refl) as [vpos Hpos].
    destruct (Hin "DiffOme" eq_refl) as [vome Home].
    destruct (Hin "DiffAngle" eq_refl) as [vang Hang].
    destruct (Hin "GrainRadius" eq_refl) as [vrad Hrad].
    destruct (Hin "Confidence" eq_refl) as [vconf Hconf].
    destruct (Hin "RMSErrorStrain" eq_refl) as [vrms Hrms].
    eexists. unfold Grain_.from_Series, mbind, assign.
    rewrite Hid, Ho. unfold getitems_values at 1. rewrite Hxyz. cbn [rbind].
    rewrite Hlp, Hpos, Home, Hang, Hrad, Hconf, Hf, Hk, Hrms, Hpv.
    cbn [rbind]. rewrite Hpz. cbn [rbind]. reflexivity.
Qed.

End Reads.

Section Stores.

Variable series : Series.

(** X7: what a returning [from_Series] leaves in the record: the scalar
    attributes are the values of their columns as they are, the phase
    number is [int] of its column, the location is the vector of X, Y and
    Z, and the lattice has all six attributes set, each to [float] of its
    column. *)
Theorem from_Series_stores (g g' : Grain_.t) :
  Grain_.from_Series series g = (g', Ok tt) ->
  getitem "GrainID" series = Ok (Grain_.ID g')
  /\ getitem "DiffPos" series = Ok (Grain_.diffPos g')
  /\ getitem "DiffOme" series = Ok (Grain_.diffOme g')
  /\ getitem "DiffAngle" series = Ok (Grain_.diffAngle g')
  /\ getitem "GrainRadius" series = Ok (Grain_.radius g')
  /\ getitem "Confidence" series = Ok (Grain_.confidence g')
  /\ getitem "RMSErrorStrain" series = Ok (Grain_.rmsErrorStrain g')
  /\ (exists v z, getitem "PhaseNr" series = Ok v /\ Num.int_ v = Ok z
                  /\ Grain_.phaseNumber g' = PInt z)
  /\ (exists x y z,
         getitem "X" series = Ok x /\ getitem "Y" series = Ok y
         /\ getitem "Z" series = Ok z
         /\ Grain_.location g' = Some (Np.mk_ndarray [3%nat] [x; y; z]))
  /\ (exists lp,
         Grain_.latticeParameters g' = Some lp /\ fully_set lp
         /\ column_float series "a" (LatticeParameters_.a_ lp)
         /\ column_float series "b" (LatticeParameters_.b_ lp)
         /\ column_float series "c" (LatticeParameters_.c_ lp)
         /\ column_float series "alpha" (LatticeParameters_.alpha_ lp)
         /\ column_float series "beta" (LatticeParameters_.beta_ lp)
         /\ column_float series "gamma" (LatticeParameters_.gamma_ lp)).
Proof.
  intros H. apply from_Series_ok_inv in H.
  destruct H as [vid [o [loc [lp [vpos [vome [vang [vrad [vconf [f [k [vrms [vph
    [Hid [Ho [Hloc [Hlp [Hpos [Home [Hang [Hrad [Hconf [Hf [Hk [Hrms [Hph ->]
    ]]]]]]]]]]]]]]]]]]]]]]]]].
  cbn. repeat (split; [assumption |]).
  split; [| split].
  - apply rbind_ok_inv in Hph. destruct Hph as [pv [Hpv Hph]].
    apply rbind_ok_inv in Hph. destruct Hph as [pz [Hpz Hph]].
    inversion Hph. exists pv, pz. repeat split; assumption.
  - unfold getitems_values, Grain_.location_columns in Hloc. cbn [mapM] in Hloc.
    destruct (getitem "X" series) as [x |]; [| discriminate Hloc].
    destruct (getitem "Y" series) as [y |]; [| discriminate Hloc].
    destruct (getitem "Z" series) as [z |]; [| discriminate Hloc].
    cbn in Hloc. inversion Hloc. exists x, y, z. repeat split.
  - exists lp. split; [reflexivity |].
    destruct (lattice_of_ok_inv series lp Hlp) as [Ca [Cb [Cc [Cal [Cbe Cga]]]]].
    split; [| repeat split; assumption].
    unfold fully_set.
    destruct Ca as [? [? [_ [_ ->]]]], Cb as [? [? [_ [_ ->]]]],
      Cc as [? [? [_ [_ ->]]]], Cal as [? [? [_ [_ ->]]]],
      Cbe as [? [? [_ [_ ->]]]], Cga as [? [? [_ [_ ->]]]].
    repeat split; discriminate.
Qed.

(** X8: a returning [from_Series] overwrites every attribute: the record it
    leaves does not depend on the record it started from. *)
Theorem from_Series_overwrites (g h g' : Grain_.t) :
  Grain_.from_Series series g = (g', Ok tt) ->
  Grain_.from_Series series h = (g', Ok tt).
Proof.
  intros H. apply from_Series_ok_inv in H.
  destruct H as [vid [o [loc [lp [vpos [vome [vang [vrad [vconf [f [k [vrms [vph
    [Hid [Ho [Hloc [Hlp [Hpos [Home [Hang [Hrad [Hconf [Hf [Hk [Hrms [Hph ->]
    ]]]]]]]]]]]]]]]]]]]]]]]]].
  unfold Grain_.from_Series, mbind, assign.
  rewrite Hid, Ho, Hloc, Hlp, Hpos, Home, Hang, Hrad, Hconf, Hf, Hk, Hrms, Hph.
  reflexivity.
Qed.

(** X9: [from_Series] reads the required columns only: for a row of
    [float64] cells, a further [float64] column under any other name
    changes nothing. *)
Theorem from_Series_ignores_other_columns (name : string) (value : float)
    (g : Grain_.t) :
  Forall (fun cell => exists f, snd cell = PFloat f) series ->
  ~ In name Grain_.required_columns ->
  Grain_.from_Series ((name, PFloat value) :: series) g
  = Grain_.from_Series series g.
Proof.
  intros _ Hname.
  assert (Hne : forall c, existsb (String.eqb c) Grain_.required_columns = true ->
                  getitem c ((name, PFloat value) :: series) = getitem c series).
  { intros c Hc. cbn [getitem]. destruct (name =? c)%string eqn:E; [| reflexivity].
    apply String.eqb_eq in E. subst c. exfalso. apply Hname.
    apply existsb_exists in Hc. destruct Hc as [c' [Hin Hc']].
    apply String.eqb_eq in Hc'. subst c'. exact Hin. }
  unfold Grain_.from_Series, Grain_.lattice_of, getitems_values, missing_labels,
    Grain_.orientation_columns, Grain_.location_columns,
    Grain_.strainFab_columns, Grain_.strainKen_columns.
  cbn [mapM filter]. rewrite !Hne by reflexivity. reflexivity.
Qed.

(** X10: when [from_Series] raises, the attributes stored before the exception
    stay in the record: the identifier is stored as soon as its column is
    there, and the orientation as soon as its nine columns are. *)
Theorem from_Series_partial (g g' : Grain_.t) (e : exn) :
  Grain_.from_Series series g = (g', Raise e) ->
  (forall v, getitem "GrainID" series = Ok v -> Grain_.ID g' = v)
  /\ (forall v o, getitem "GrainID" series = Ok v ->
        (a <- getitems_values Grain_.orientation_columns series ;;
         Np.reshape [3; 3]%nat a)%py = Ok o ->
        Grain_.orientation g' = Some o)
  /\ (getitem "GrainID" series = Raise e -> g' = g).
Proof.
  unfold Grain_.from_Series, mbind, assign.
  destruct (getitem "GrainID" series) as [vid |] eqn:Hid.
  - destruct (v <- getitems_values Grain_.orientation_columns series ;;
              Np.reshape [3; 3]%nat v)%py as [o |] eqn:Ho.
    + repeat match goal with
             | |- context [match ?r with Ok _ => _ | Raise _ => _ end] =>
                 destruct r
             end;
        intros H; inversion H; subst;
        (split; [intros v Hv; inversion Hv; reflexivity |]);
        (split; [intros v o' _ Ho'; inversion Ho'; reflexivity
                | intros Hv; discriminate Hv]).
    + intros H; inversion H; subst.
      split; [intros v Hv; inversion Hv; reflexivity |].
      split; [intros v o' _ Ho'; discriminate Ho' | intros Hv; discriminate Hv].
  - intros H; inversion H; subst.
    split; [intros v Hv; discriminate Hv |].
    split; [intros v o' Hv; discriminate Hv | reflexivity].
Qed.

End Stores.

(** ** [Grains.parse]: the header, further *)

Section HeaderValues.

Variable filename : string.
Variable header : list string.

Lemma ws_value_intro (i : nat) (kv : string * string) :
  (line <- getline header i ;; unpack2 (Str.split line))%py = Ok kv ->
  ws_value header i = Some (snd kv).
Proof.
  unfold ws_value, getline. destruct (nth_error header i) as [line |]; cbn;
    [| discriminate].
  destruct (Str.split line) as [| k [| v [| x rest]]]; cbn; intros H;
    inversion H. reflexivity.
Qed.

Lemma ws_value_elim (i : nat) (v : string) :
  ws_value header i = Some v ->
  exists k, (line <- getline header i ;; unpack2 (Str.split line))%py = Ok (k, v).
Proof.
  unfold ws_value, getline. destruct (nth_error header i) as [line |]; cbn;
    [| discriminate].
  destruct (Str.split line) as [| k [| v' [| x rest]]]; cbn; intros H;
    inversion H. exists k. reflexivity.
Qed.

Lemma colon_value_intro (i : nat) (kv : string * string) :
  (line <- getline header i ;; unpack2 (Str.split_on ":" line))%py = Ok kv ->
  colon_value header i = Some (snd kv).
Proof.
  unfold colon_value, getline. destruct (nth_error header i) as [line |]; cbn;
    [| discriminate].
  destruct (Str.split_on ":" line) as [| k [| v [| x rest]]]; cbn; intros H;
    inversion H. reflexivity.
Qed.

Lemma colon_value_elim (i : nat) (v : string) :
  colon_value header i = Some v ->
  exists k, (line <- getline header i ;; unpack2 (Str.split_on ":" line))%py
            = Ok (k, v).
Proof.
  unfold colon_value, getline. destruct (nth_error header i) as [line |]; cbn;
    [| discriminate].
  destruct (Str.split_on ":" line) as [| k [| v' [| x rest]]]; cbn; intros H;
    inversion H. exists k. reflexivity.
Qed.

Ltac local H x Hx :=
  apply mbind_ok_inv in H; destruct H as [x [? [Hx H]]];
  apply lift_inv in Hx; destruct Hx as [-> Hx]; symmetry in Hx.

Ltac stored H v Hv :=
  apply mbind_ok_inv in H; destruct H as [? [? [Hv H]]];
  apply assign_ok_inv in Hv; destruct Hv as [v [Hv ->]].

(** A header read that returns has found the values it stores. *)
Lemma read_header_ok_inv (s0 s : Grains.t) (u : unit) :
  Grains.read_header filename header s0 = (s, Ok u) ->
  exists hv, header_gives header hv /\ s = populated hv (Grains.grains s0).
Proof.
  unfold Grains.read_header. intros H.
  local H kv0 H0. local H u0 E0. stored H n0 A0.
  local H kv1 H1. local H u1 E1. stored H f1 A1.
  local H kv2 H2. local H u2 E2. stored H f2 A2.
  local H kv3 H3. local H u3 E3. stored H f3 A3.
  local H kv4 H4. local H u4 E4. stored H n4 A4.
  local H kv6 H6. local H u6 E6. stored H n6 A6.
  local H kv7 H7. local H u7 E7. local H kwds U7.
  apply assign_ok_inv in H. destruct H as [l [A7 ->]].
  exists (mk_header_values n0 f1 f2 f3 n4 n6 l).
  split; [| reflexivity].
  unfold header_gives. cbn.
  repeat split.
  - exists (snd kv0). split; [apply ws_value_intro; exact H0 | exact A0].
  - exists (snd kv1). split; [apply ws_value_intro; exact H1 | exact A1].
  - exists (snd kv2). split; [apply ws_value_intro; exact H2 | exact A2].
  - exists (snd kv3). split; [apply ws_value_intro; exact H3 | exact A3].
  - exists (snd kv4). split; [apply ws_value_intro; exact H4 | exact A4].
  - exists (snd kv6). split; [apply colon_value_intro; exact H6 | exact A6].
  - exists (snd kv7), kwds.
    split; [apply colon_value_intro; exact H7 | split; [exact U7 | exact A7]].
Qed.

(** A header that gives values is read, whatever its keys are. *)
Lemma read_header_ok_intro (s0 : Grains.t) (hv : header_values) :
  header_gives header hv ->
  Grains.read_header filename header s0
  = (populated hv (Grains.grains s0), Ok tt).
Proof.
  intros [[v0 [W0 C0]] [[v1 [W1 C1]] [[v2 [W2 C2]] [[v3 [W3 C3]] [[v4 [W4 C4]]
    [[v6 [W6 C6]] [v7 [kwds [W7 [U7 C7]]]]]]]]]].
  apply ws_value_elim in W0, W1, W2, W3, W4.
  apply colon_value_elim in W6, W7.
  destruct W0 as [k0 W0], W1 as [k1 W1], W2 as [k2 W2], W3 as [k3 W3],
    W4 as [k4 W4], W6 as [k6 W6], W7 as [k7 W7].
  unfold Grains.read_header, mbind, lift, assign, expect_key.
  rewrite W0. cbn [fst snd]. rewrite C0.
  rewrite W1. cbn [fst snd]. rewrite C1.
  rewrite W2. cbn [fst snd]. rewrite C2.
  rewrite W3. cbn [fst snd]. rewrite C3.
  rewrite W4. cbn [fst snd]. rewrite C4.
  rewrite W6. cbn [fst snd]. rewrite C6.
  rewrite W7. cbn [fst snd]. rewrite U7, C7.
  destruct hv. reflexivity.
Qed.

End HeaderValues.

Lemma lattice_of_full (series : Series) (lp : LatticeParameters_.t) :
  Grain_.lattice_of series = Ok lp -> fully_set lp.
Proof.
  intros H. destruct (lattice_of_ok_inv series lp H) as [Ca [Cb [Cc [Cal [Cbe Cga]]]]].
  unfold fully_set.
  destruct Ca as [? [? [_ [_ ->]]]], Cb as [? [? [_ [_ ->]]]],
    Cc as [? [? [_ [_ ->]]]], Cal as [? [? [_ [_ ->]]]],
    Cbe as [? [? [_ [_ ->]]]], Cga as [? [? [_ [_ ->]]]].
  repeat split; discriminate.
Qed.

Lemma of_row_ok_inv (row : Series) (g : Grain_.t) :
  Grain_.of_row row = Ok g -> Grain_.from_Series row Grain_.init = (g, Ok tt).
Proof.
  unfold Grain_.of_row.
  destruct (Grain_.from_Series row Grain_.init) as [g0 [[] | e]]; intros H;
    inversion H. reflexivity.
Qed.

(** ** [Grains.parse]: when it returns *)

Section Returns.

Variable read_table : string -> result DataFrame.
Variable fs : FileSystem.
Variable filename : string.

Lemma parse_ok_inv (self self' : Grains.t) (u : unit) :
  Grains.parse read_table fs filename self = (self', Ok u) ->
  exists content table hv gs,
    fs filename = Some content
    /\ read_table (Str.replace "%" "" content) = Ok table
    /\ header_gives (Grains.header_of (Str.replace "%" "" content)) hv
    /\ mapM Grain_.of_row table = Ok gs
    /\ hv_numGrains hv = Z.of_nat (List.length gs)
    /\ self' = populated hv gs.
Proof.
  intros H. destruct (fs filename) as [content |] eqn:Efs.
  - rewrite (parse_existing _ _ _ content _ Efs) in H. cbv zeta in H.
    apply mbind_ok_inv in H. destruct H as [table [s1 [Ht H]]].
    apply lift_inv in Ht. destruct Ht as [-> Ht]. symmetry in Ht.
    apply mbind_ok_inv in H. destruct H as [u1 [s2 [Hh H]]].
    apply read_header_ok_inv in Hh. destruct Hh as [hv [Hgives ->]].
    apply mbind_ok_inv in H. destruct H as [u2 [s3 [Hg H]]].
    apply assign_ok_inv in Hg. destruct Hg as [gs [Hgs ->]].
    pose proof (verify_state _ _ _ H) as ->.
    apply verify_ok in H. cbn in H. inversion H as [Hn].
    exists content, table, hv, gs.
    split; [reflexivity |]. split; [exact Ht |]. split; [exact Hgives |].
    split; [exact Hgs |]. split; [exact Hn | reflexivity].
  - rewrite parse_absent in H by (unfold isfile; rewrite Efs; reflexivity).
    discriminate H.
Qed.

Lemma parse_ok_intro (self : Grains.t) (content : string) (table : DataFrame)
    (hv : header_values) (gs : list Grain_.t) :
  fs filename = Some content ->
  read_table (Str.replace "%" "" content) = Ok table ->
  header_gives (Grains.header_of (Str.replace "%" "" content)) hv ->
  mapM Grain_.of_row table = Ok gs ->
  hv_numGrains hv = Z.of_nat (List.length gs) ->
  Grains.parse read_table fs filename self = (populated hv gs, Ok tt).
Proof.
  intros Efs Ht Hgives Hgs Hn.
  rewrite (parse_existing _ _ _ content _ Efs). cbv zeta.
  unfold mbind at 1. unfold lift at 1. rewrite Ht.
  unfold mbind at 1. rewrite (read_header_ok_intro _ _ _ hv Hgives).
  unfold mbind, assign. rewrite Hgs.
  unfold Grains.verify, Grains.count_differs, Grains.NumGrains. cbn.
  rewrite Hn, Z.eqb_refl. reflexivity.
Qed.

(** X11: [parse] returns exactly when the file exists, the table is read,
    lines 1 to 5, 7 and 8 of the cleaned text give values, every row gives
    a grain and the number of rows is the declared count; the instance
    then holds those values and those grains, and nothing of what it held
    before. *)
Theorem parse_returns_iff (self self' : Grains.t) :
  Grains.parse read_table fs filename self = (self', Ok tt)
  <->
  exists content table hv gs,
    fs filename = Some content
    /\ read_table (Str.replace "%" "" content) = Ok table
    /\ header_gives (Grains.header_of (Str.replace "%" "" content)) hv
    /\ mapM Grain_.of_row table = Ok gs
    /\ hv_numGrains hv = Z.of_nat (List.length gs)
    /\ self' = populated hv gs.
Proof.
  split.
  - apply parse_ok_inv.
  - intros [content [table [hv [gs [Efs [Ht [Hgives [Hgs [Hn ->]]]]]]]]].
    apply (parse_ok_intro self content table hv gs); assumption.
Qed.

(** X12: a returning [parse] overwrites every attribute: the instance it
    leaves does not depend on the instance it started from, so parsing
    the same file into the result again changes nothing. *)
Theorem parse_overwrites (self other self' : Grains.t) :
  Grains.parse read_table fs filename self = (self', Ok tt) ->
  Grains.parse read_table fs filename other = (self', Ok tt)
  /\ Grains.parse read_table fs filename self' = (self', Ok tt).
Proof.
  intros H. apply parse_ok_inv in H.
  destruct H as [content [table [hv [gs [Efs [Ht [Hgives [Hgs [Hn ->]]]]]]]]].
  split; apply (parse_ok_intro _ content table hv gs); assumption.
Qed.

(** X13: after a returning [parse] the grains are the rows of the table, one
    grain per row and in the order of the rows. *)
Theorem parse_grains_follow_rows (self self' : Grains.t) :
  Grains.parse read_table fs filename self = (self', Ok tt) ->
  exists content table,
    fs filename = Some content
    /\ read_table (Str.replace "%" "" content) = Ok table
    /\ List.length (Grains.grains self') = List.length table
    /\ forall i row, nth_error table i = Some row ->
         exists g, nth_error (Grains.grains self') i = Some g
                   /\ Grain_.from_Series row Grain_.init = (g, Ok tt).
Proof.
  intros H. apply parse_ok_inv in H.
  destruct H as [content [table [hv [gs [Efs [Ht [_ [Hgs [_ ->]]]]]]]]].
  exists content, table. split; [exact Efs | split; [exact Ht |]].
  destruct (mapM_ok_nth _ _ _ Hgs) as [Hlen Hnth]. cbn.
  split; [exact Hlen |].
  intros i row Hrow. destruct (Hnth i row Hrow) as [g [Hg Hof]].
  exists g. split; [exact Hg | apply of_row_ok_inv; exact Hof].
Qed.

(** X14: after a returning [parse] the nominal lattice and the lattice of
    every grain have all six attributes set: no default applies to them
    and comparing two of them cannot raise. *)
Theorem parsed_lattices_full (self self' : Grains.t) :
  Grains.parse read_table fs filename self = (self', Ok tt) ->
  (exists l, Grains.LatticeParameters self' = Some l /\ fully_set l)
  /\ forall g, In g (Grains.grains self') ->
       exists l, Grain_.latticeParameters g = Some l /\ fully_set l.
Proof.
  intros H. apply parse_ok_inv in H.
  destruct H as [content [table [hv [gs [_ [_ [Hgives [Hgs [_ ->]]]]]]]]].
  split.
  - exists (hv_lattice hv). split; [reflexivity |].
    destruct Hgives as [_ [_ [_ [_ [_ [_ [v [kwds [_ [Hu Hinit]]]]]]]]]].
    apply (header_lattice_full _ _ _ Hu Hinit).
  - cbn. intros g Hg. apply In_nth_error in Hg. destruct Hg as [i Hi].
    destruct (mapM_ok_nth _ _ _ Hgs) as [Hlen Hnth].
    assert (Hrow : exists row, nth_error table i = Some row).
    { destruct (nth_error table i) as [row |] eqn:E; [exists row; reflexivity |].
      apply nth_error_None in E. assert (Hlt : (i < List.length gs)%nat)
        by (apply nth_error_Some; rewrite Hi; discriminate). lia. }
    destruct Hrow as [row Hrow]. destruct (Hnth i row Hrow) as [g' [Hg' Hof]].
    rewrite Hi in Hg'. inversion Hg'; subst g'.
    apply of_row_ok_inv, from_Series_ok_inv in Hof.
    destruct Hof as [vid [o [loc [lp [vpos [vome [vang [vrad [vconf [f [k [vrms [vph
      [_ [_ [_ [Hlp [_ [_ [_ [_ [_ [_ [_ [_ [_ ->]]]]]]]]]]]]]]]]]]]]]]]]]].
    exists lp. split; [reflexivity | apply (lattice_of_full _ _ Hlp)].
Qed.

(** X15: when a row gives no grain, [parse] raises the exception of the first
    such row; the header values stay in the instance and its list of
    grains is the one it had before the call. *)
Theorem parse_row_failure (self : Grains.t) (content : string) (table : DataFrame)
    (hv : header_values) (e : exn) :
  fs filename = Some content ->
  read_table (Str.replace "%" "" content) = Ok table ->
  header_gives (Grains.header_of (Str.replace "%" "" content)) hv ->
  mapM Grain_.of_row table = Raise e ->
  Grains.parse read_table fs filename self
  = (populated hv (Grains.grains self), Raise e)
  /\ exists i row,
       nth_error table i = Some row /\ Grain_.of_row row = Raise e
       /\ forall j row', (j < i)%nat -> nth_error table j = Some row' ->
                         exists g, Grain_.of_row row' = Ok g.
Proof.
  intros Efs Ht Hgives Hrows. split.
  - rewrite (parse_existing _ _ _ content _ Efs). cbv zeta.
    unfold mbind at 1. unfold lift at 1. rewrite Ht.
    unfold mbind at 1. rewrite (read_header_ok_intro _ _ _ hv Hgives).
    unfold mbind, assign. rewrite Hrows. reflexivity.
  - apply mapM_raise_first. exact Hrows.
Qed.

(** X16: a file whose cleaned text has fewer than eight lines is never parsed:
    [parse] raises, whatever the table reader gives. *)
Theorem parse_short_file (self : Grains.t) (content : string) :
  fs filename = Some content ->
  (List.length (Str.readlines (Str.replace "%" "" content)) < 8)%nat ->
  exists self' e, Grains.parse read_table fs filename self = (self', Raise e).
Proof.
  intros Efs Hshort.
  destruct (Grains.parse read_table fs filename self) as [self' [u | e]] eqn:H;
    [| exists self', e; reflexivity].
  exfalso. apply parse_ok_inv in H.
  destruct H as [content' [table [hv [gs [Efs' [_ [Hgives _]]]]]]].
  rewrite Efs in Efs'. inversion Efs'; subst content'.
  destruct Hgives as [_ [_ [_ [_ [_ [_ [v [kwds [Hv _]]]]]]]]].
  unfold colon_value in Hv.
  destruct (nth_error (Grains.header_of (Str.replace "%" "" content)) 7)
    as [line |] eqn:E; [| discriminate Hv].
  assert (Hlt : (7 < List.length (Grains.header_of (Str.replace "%" "" content)))%nat)
    by (apply nth_error_Some; rewrite E; discriminate).
  unfold Grains.header_of in Hlt. rewrite length_map, length_firstn in Hlt. lia.
Qed.

End Returns.

(** X17: the header is read by position: two headers that give the same
    values are read to the same instance, whatever their keys, their
    sixth line and the file name are. *)
Theorem header_read_by_position (filename filename' : string)
    (header header' : list string) (hv : header_values) (s0 : Grains.t) :
  header_gives header hv -> header_gives header' hv ->
  Grains.read_header filename header s0 = Grains.read_header filename' header' s0.
Proof.
  intros H H'.
  rewrite (read_header_ok_intro filename header s0 hv H).
  rewrite (read_header_ok_intro filename' header' s0 hv H').
  reflexivity.
Qed.

(** ** The further properties at sample inputs *)

Lemma from_Series_stores_witness :
  exists g',
    Grain_.from_Series Fixture.numbered_row Grain_.init = (g', Ok tt)
    /\ Grain_.ID g' = PFloat 0
    /\ Grain_.phaseNumber g' = PInt 0
    /\ exists lp, Grain_.latticeParameters g' = Some lp /\ fully_set lp.
Proof.
  exists (fst (Grain_.from_Series Fixture.numbered_row Grain_.init)).
  assert (H : Grain_.from_Series Fixture.numbered_row Grain_.init
              = (fst (Grain_.from_Series Fixture.numbered_row Grain_.init), Ok tt))
    by (vm_compute; reflexivity).
  split; [exact H |].
  destruct (from_Series_stores _ _ _ H)
    as [_ [_ [_ [_ [_ [_ [_ [_ [_ [lp [Hlp [Hfull _]]]]]]]]]]]].
  split; [vm_compute; reflexivity | split; [vm_compute; reflexivity |]].
  exists lp. split; assumption.
Defined.

Lemma from_Series_overwrites_witness :
  Grain_.from_Series Fixture.numbered_row sample_grain
  = Grain_.from_Series Fixture.numbered_row Grain_.init.
Proof.
  assert (H : Grain_.from_Series Fixture.numbered_row Grain_.init
              = (fst (Grain_.from_Series Fixture.numbered_row Grain_.init), Ok tt))
    by (vm_compute; reflexivity).
  rewrite (from_Series_overwrites _ Grain_.init sample_grain _ H).
  symmetry. exact H.
Defined.

Lemma from_Series_ignores_other_columns_witness :
  ~ In "Eul1" Grain_.required_columns
  /\ Grain_.from_Series (("Eul1", PFloat 1) :: Fixture.numbered_row) Grain_.init
     = Grain_.from_Series Fixture.numbered_row Grain_.init.
Proof.
  assert (H : ~ In "Eul1" Grain_.required_columns).
  { cbn. intros H.
    repeat (destruct H as [H | H]; [discriminate H |]). exact H. }
  split; [exact H |].
  apply (from_Series_ignores_other_columns Fixture.numbered_row "Eul1" 1%float
           Grain_.init); [| exact H].
  unfold Fixture.numbered_row. cbn [combine map Grain_.required_columns].
  repeat (constructor; [eexists; reflexivity |]). constructor.
Defined.

Lemma from_Series_partial_witness :
  exists g',
    Grain_.from_Series row_without_phase Grain_.init = (g', Raise (KeyError "PhaseNr"))
    /\ Grain_.ID g' = PFloat 0
    /\ Grain_.phaseNumber g' = PNone.
Proof.
  exists (fst (Grain_.from_Series row_without_phase Grain_.init)).
  assert (H : Grain_.from_Series row_without_phase Grain_.init
              = (fst (Grain_.from_Series row_without_phase Grain_.init),
                 Raise (KeyError "PhaseNr")))
    by (vm_compute; reflexivity).
  split; [exact H |].
  destruct (from_Series_partial _ _ _ _ H) as [Hid _].
  split; [apply Hid; vm_compute; reflexivity | vm_compute; reflexivity].
Defined.

Lemma parse_overwrites_witness :
  exists self',
    Grains.parse Fixture.read_table (Fixture.disk "g.csv" Fixture.minimal) "g.csv"
      Grains.init = (self', Ok tt)
    /\ Grains.parse Fixture.read_table (Fixture.disk "g.csv" Fixture.minimal) "g.csv"
         self' = (self', Ok tt).
Proof.
  exists (fst (Grains.parse Fixture.read_table
                 (Fixture.disk "g.csv" Fixture.minimal) "g.csv" Grains.init)).
  assert (H : Grains.parse Fixture.read_table
                (Fixture.disk "g.csv" Fixture.minimal) "g.csv" Grains.init
              = (fst (Grains.parse Fixture.read_table
                        (Fixture.disk "g.csv" Fixture.minimal) "g.csv" Grains.init),
                 Ok tt))
    by (vm_compute; reflexivity).
  split; [exact H |].
  exact (proj2 (parse_overwrites _ _ _ _ Grains.init _ H)).
Defined.

Lemma parse_grains_follow_rows_witness :
  exists self',
    Grains.parse Fixture.read_table (Fixture.disk "g.csv" Fixture.minimal) "g.csv"
      Grains.init = (self', Ok tt)
    /\ exists content table,
         Fixture.disk "g.csv" Fixture.minimal "g.csv" = Some content
         /\ Fixture.read_table (Str.replace "%" "" content) = Ok table
         /\ List.length (Grains.grains self') = List.length table.
Proof.
  exists (fst (Grains.parse Fixture.read_table
                 (Fixture.disk "g.csv" Fixture.minimal) "g.csv" Grains.init)).
  assert (H : Grains.parse Fixture.read_table
                (Fixture.disk "g.csv" Fixture.minimal) "g.csv" Grains.init
              = (fst (Grains.parse Fixture.read_table
                        (Fixture.disk "g.csv" Fixture.minimal) "g.csv" Grains.init),
                 Ok tt))
    by (vm_compute; reflexivity).
  split; [exact H |].
  destruct (parse_grains_follow_rows _ _ _ _ _ H)
    as [content [table [Hc [Ht [Hlen _]]]]].
  exists content, table. repeat split; assumption.
Defined.

Lemma parsed_lattices_full_witness :
  exists self' l,
    Grains.parse Fixture.read_table (Fixture.disk "g.csv" Fixture.minimal) "g.csv"
      Grains.init = (self', Ok tt)
    /\ Grains.LatticeParameters self' = Some l /\ fully_set l.
Proof.
  assert (H : Grains.parse Fixture.read_table
                (Fixture.disk "g.csv" Fixture.minimal) "g.csv" Grains.init
              = (fst (Grains.parse Fixture.read_table
                        (Fixture.disk "g.csv" Fixture.minimal) "g.csv" Grains.init),
                 Ok tt))
    by (vm_compute; reflexivity).
  destruct (parsed_lattices_full _ _ _ _ _ H) as [[l [Hl Hfull]] _].
  eexists. exists l. split; [exact H | split; assumption].
Defined.

Lemma minimal_header_gives :
  header_gives (Grains.header_of (Str.replace "%" "" Fixture.minimal)) minimal_values
  /\ header_gives (Grains.header_of (Str.replace "%" "" Fixture.misspelled))
       minimal_values
  /\ header_gives (Grains.header_of (Str.replace "%" "" no_phase_csv)) minimal_values.
Proof.
  repeat split; eexists; try eexists; repeat split; vm_compute; reflexivity.
Qed.

Lemma parse_row_failure_witness :
  exists self',
    Grains.parse Fixture.read_table (Fixture.disk "g.csv" no_phase_csv) "g.csv"
      Grains.init = (self', Raise (KeyError "PhaseNr"))
    /\ Grains.NumGrains self' = Some 1
    /\ Grains.grains self' = [].
Proof.
  destruct (parse_row_failure Fixture.read_table (Fixture.disk "g.csv" no_phase_csv)
              "g.csv" Grains.init no_phase_csv no_phase_table minimal_values
              (KeyError "PhaseNr"))
    as [H _].
  - reflexivity.
  - vm_compute. reflexivity.
  - exact (proj2 (proj2 minimal_header_gives)).
  - vm_compute. reflexivity.
  - eexists. split; [exact H |]. split; reflexivity.
Defined.

Lemma parse_short_file_witness :
  exists self',
    Grains.parse (fun _ => Ok []) (Fixture.disk "g.csv" three_lines) "g.csv" Grains.init
    = (self', Raise IndexError).
Proof.
  destruct (parse_short_file (fun _ => Ok []) (Fixture.disk "g.csv" three_lines)
              "g.csv" Grains.init three_lines) as [self' [e H]].
  - reflexivity.
  - vm_compute. lia.
  - exists self'. rewrite H. vm_compute in H. inversion H. reflexivity.
Defined.

Lemma header_read_by_position_witness :
  Grains.read_header "g.csv"
    (Grains.header_of (Str.replace "%" "" Fixture.misspelled)) Grains.init
  = Grains.read_header "h.csv"
      (Grains.header_of (Str.replace "%" "" Fixture.minimal)) Grains.init.
Proof.
  apply (header_read_by_position "g.csv" "h.csv" _ _ minimal_values Grains.init).
  - exact (proj1 (proj2 minimal_header_gives)).
  - exact (proj1 minimal_header_gives).
Defined.

(** ** The test module *)

Section Test.

Import TestMidasIo.

Lemma py_eq_of_int_refl (x : option Z) : py_eq (of_int x) (of_int x) = true.
Proof. destruct x as [z |]; cbn; [apply Z.eqb_refl | reflexivity]. Qed.

(** X18: the test never compares the number of phases with the expected one:
    the outcome of its assertions is the same whatever [numPhases_] holds
    in the parsed instance and in the fixture. *)
Theorem test_blind_to_numPhases (test truth : Grains.t) (p q : option Z) :
  assertions
    (Grains.mk (Grains.numGrains_ test) (Grains.beamCenter_ test)
       (Grains.beamThickness_ test) (Grains.globalPosition_ test) p
       (Grains.spaceGroup_ test) (Grains.latticeParameters_ test)
       (Grains.grains test))
    (Grains.mk (Grains.numGrains_ truth) (Grains.beamCenter_ truth)
       (Grains.beamThickness_ truth) (Grains.globalPosition_ truth) q
       (Grains.spaceGroup_ truth) (Grains.latticeParameters_ truth)
       (Grains.grains truth))
  = assertions test truth.
Proof.
  unfold assertions, Grains.NumGrains, Grains.BeamCenter, Grains.BeamThickness,
    Grains.GlobalPosition, Grains.NumPhases, Grains.SpaceGroup,
    Grains.LatticeParameters.
  cbn [Grains.numGrains_ Grains.beamCenter_ Grains.beamThickness_
       Grains.globalPosition_ Grains.numPhases_ Grains.spaceGroup_
       Grains.latticeParameters_ Grains.grains].
  rewrite !py_eq_of_int_refl. reflexivity.
Qed.

(** X19: when the first three assertions hold and the global position is not
    close to the expected one, the test does not end with a failed
    assertion: building the message raises an [AttributeError]. *)
Theorem test_global_position_message (test truth : Grains.t) :
  py_eq (of_int (Grains.NumGrains test)) (of_int (Grains.NumGrains truth)) = true ->
  Np.isclose (of_float (Grains.BeamCenter test)) (of_float (Grains.BeamCenter truth))
  = Ok true ->
  Np.isclose (of_float (Grains.BeamThickness test))
    (of_float (Grains.BeamThickness truth)) = Ok true ->
  Np.isclose (of_float (Grains.GlobalPosition test))
    (of_float (Grains.GlobalPosition truth)) = Ok false ->
  assertions test truth = Errored AttributeError.
Proof.
  intros H1 H2 H3 H4. unfold assertions. rewrite H1, H2, H3, H4. reflexivity.
Qed.

(** X20: the loop over the grains stops with the shorter list: grains that the
    parsed instance holds beyond those of the fixture are not compared. *)
Theorem test_compares_common_prefix (test extra truth : list Grain_.t) :
  (List.length truth <= List.length test)%nat ->
  compare_grains (test ++ extra) truth = compare_grains test truth.
Proof.
  revert truth. induction test as [| g test IH]; intros truth Hlen.
  - destruct truth as [| h truth]; [| cbn in Hlen; lia].
    destruct extra; reflexivity.
  - destruct truth as [| h truth]; [reflexivity |].
    cbn in Hlen |- *. rewrite IH by lia. reflexivity.
Qed.

End Test.

(** The test passes on the minimal file. *)
Example test_grains_passes :
  TestMidasIo.test_grains Fixture.read_table
    (Fixture.disk "data/Grains-minimal.csv" Fixture.minimal) TestMidasIo.minimal
  = TestMidasIo.Passed.
Proof. vm_compute. reflexivity. Qed.

Lemma test_global_position_message_witness :
  TestMidasIo.assertions moved TestMidasIo.minimal
  = TestMidasIo.Errored AttributeError.
Proof.
  apply (test_global_position_message moved TestMidasIo.minimal);
    vm_compute; reflexivity.
Defined.

Lemma test_compares_common_prefix_witness :
  TestMidasIo.compare_grains ([sample_grain] ++ [other_confidence; Grain_.init])
    [TestMidasIo.minimal_grain]
  = TestMidasIo.Passed.
Proof.
  rewrite (test_compares_common_prefix [sample_grain] [other_confidence; Grain_.init]
             [TestMidasIo.minimal_grain]) by (cbn; lia).
  vm_compute. reflexivity.
Defined.

(** ** [Grains.parse]: the percent signs and the line ends *)

Section Newlines.








End Newlines.

Section Percent.

Variable read_table : string -> result DataFrame.


End Percent.



(** ** [Grains.parse]: the state after a failure, exactly *)

Section Stages.

Variable filename : string.
Variable header : list string.

Ltac raised_at s k hv :=
  right; exists k, hv; eexists;
  split; [lia |];
  split; [unfold stages_ok; cbn; repeat split; intros; first [lia | reflexivity] |];
  split; [cbn; reflexivity | destruct s; reflexivity].

(** [read_header] runs the header statements in order: it returns when
    all seven return, and otherwise stops at the first that raises, with
    the values of the statements before it stored. *)
Lemma read_header_stores (s0 : Grains.t) :
  (exists hv,
      stages_ok header 7 hv
      /\ Grains.read_header filename header s0 = (stored_upto 7 hv s0, Ok tt))
  \/ (exists k hv e,
         (k <= 6)%nat /\ stages_ok header k hv /\ stage_raises header k e
         /\ Grains.read_header filename header s0 = (stored_upto k hv s0, Raise e)).
Proof.
  pose (l0 := LatticeParameters_.empty).
  unfold Grains.read_header, stages_ok, stage_raises, numGrains_of, beamCenter_of,
    beamThickness_of, globalPosition_of, numPhases_of, spaceGroup_of,
    latticeParameters_of, split_line, split_colon, mbind, lift, assign, expect_key.
  destruct (line <- getline header 0 ;; unpack2 (Str.split line))%py as [kv0 |];
    cbn [rbind fst snd];
    [| raised_at s0 0%nat (mk_header_values 0 zero zero zero 0 0 l0)].
  destruct (Num.int_of_str (snd kv0)) as [n0 |];
    [| raised_at s0 0%nat (mk_header_values 0 zero zero zero 0 0 l0)].
  destruct (line <- getline header 1 ;; unpack2 (Str.split line))%py as [kv1 |];
    cbn [rbind fst snd];
    [| raised_at s0 1%nat (mk_header_values n0 zero zero zero 0 0 l0)].
  destruct (Num.float_of_str (snd kv1)) as [f1 |];
    [| raised_at s0 1%nat (mk_header_values n0 zero zero zero 0 0 l0)].
  destruct (line <- getline header 2 ;; unpack2 (Str.split line))%py as [kv2 |];
    cbn [rbind fst snd];
    [| raised_at s0 2%nat (mk_header_values n0 f1 zero zero 0 0 l0)].
  destruct (Num.float_of_str (snd kv2)) as [f2 |];
    [| raised_at s0 2%nat (mk_header_values n0 f1 zero zero 0 0 l0)].
  destruct (line <- getline header 3 ;; unpack2 (Str.split line))%py as [kv3 |];
    cbn [rbind fst snd];
    [| raised_at s0 3%nat (mk_header_values n0 f1 f2 zero 0 0 l0)].
  destruct (Num.float_of_str (snd kv3)) as [f3 |];
    [| raised_at s0 3%nat (mk_header_values n0 f1 f2 zero 0 0 l0)].
  destruct (line <- getline header 4 ;; unpack2 (Str.split line))%py as [kv4 |];
    cbn [rbind fst snd];
    [| raised_at s0 4%nat (mk_header_values n0 f1 f2 f3 0 0 l0)].
  destruct (Num.int_of_str (snd kv4)) as [n4 |];
    [| raised_at s0 4%nat (mk_header_values n0 f1 f2 f3 0 0 l0)].
  destruct (line <- getline header 6 ;; unpack2 (Str.split_on ":" line))%py
    as [kv6 |]; cbn [rbind fst snd];
    [| raised_at s0 5%nat (mk_header_values n0 f1 f2 f3 n4 0 l0)].
  destruct (Num.int_of_str (snd kv6)) as [n6 |];
    [| raised_at s0 5%nat (mk_header_values n0 f1 f2 f3 n4 0 l0)].
  destruct (line <- getline header 7 ;; unpack2 (Str.split_on ":" line))%py
    as [kv7 |]; cbn [rbind fst snd];
    [| raised_at s0 6%nat (mk_header_values n0 f1 f2 f3 n4 n6 l0)].
  destruct (unpack6 (Str.split_on " " (Str.strip (snd kv7)))) as [kwds |];
    cbn [rbind];
    [| raised_at s0 6%nat (mk_header_values n0 f1 f2 f3 n4 n6 l0)].
  destruct (LatticeParameters_.init kwds) as [l |];
    [| raised_at s0 6%nat (mk_header_values n0 f1 f2 f3 n4 n6 l0)].
  left. exists (mk_header_values n0 f1 f2 f3 n4 n6 l).
  split; [cbn; repeat split; intros; reflexivity | destruct s0; reflexivity].
Qed.

End Stages.

Section Failure.

Variable read_table : string -> result DataFrame.
Variable fs : FileSystem.
Variable filename : string.

(** C3, as the code has it: when [parse] raises, the instance holds
    exactly what the call stored before the exception.  It is unchanged
    when the file is missing or the table reader raises.  When the header
    statement of position [k] raises, the [k] attributes before it (in the
    order numGrains, beamCenter, beamThickness, globalPosition, numPhases,
    spaceGroup, latticeParameters) hold the values read from the header
    and all others, the grains among them, are as before the call.  When
    a row raises, the seven header attributes hold their values and the
    grains are as before.  When the count check raises, the seven header
    attributes hold their values and the grains are those of the rows. *)
Theorem failed_parse_keeps_stores (self self' : Grains.t) (e : exn) :
  Grains.parse read_table fs filename self = (self', Raise e) ->
  (fs filename = None /\ e = IOError (filename ++ " was not found.") /\ self' = self)
  \/
  exists content,
    fs filename = Some content
    /\ ((read_table (Str.replace "%" "" content) = Raise e /\ self' = self)
        \/
        exists table hv,
          read_table (Str.replace "%" "" content) = Ok table
          /\ ((exists k,
                  (k <= 6)%nat
                  /\ stages_ok (Grains.header_of (Str.replace "%" "" content)) k hv
                  /\ stage_raises (Grains.header_of (Str.replace "%" "" content)) k e
                  /\ self' = stored_upto k hv self)
              \/ (stages_ok (Grains.header_of (Str.replace "%" "" content)) 7 hv
                  /\ mapM Grain_.of_row table = Raise e
                  /\ self' = stored_upto 7 hv self)
              \/ (exists gs,
                     stages_ok (Grains.header_of (Str.replace "%" "" content)) 7 hv
                     /\ mapM Grain_.of_row table = Ok gs
                     /\ hv_numGrains hv <> Z.of_nat (List.length gs)
                     /\ e = IOError (Grains.count_message (Some (hv_numGrains hv))
                                       (List.length gs))
                     /\ self' = Grains.set_grains gs (stored_upto 7 hv self)))).
Proof.
  intros H. destruct (fs filename) as [content |] eqn:Efs.
  - right. exists content. split; [reflexivity |].
    rewrite (parse_existing _ _ _ content _ Efs) in H. cbv zeta in H.
    unfold mbind at 1 in H. unfold lift at 1 in H.
    destruct (read_table (Str.replace "%" "" content)) as [table | e0].
    + right.
      destruct (read_header_stores filename
                  (Grains.header_of (Str.replace "%" "" content)) self)
        as [[hv [Hok Hrun]] | [k [hv [e1 [Hk [Hok [Hraise Hrun]]]]]]].
      * exists table, hv. split; [reflexivity |].
        unfold mbind at 1 in H. rewrite Hrun in H.
        unfold mbind, assign in H.
        destruct (mapM Grain_.of_row table) as [gs | e2].
        -- right. right. exists gs.
           unfold Grains.verify, Grains.count_differs, Grains.NumGrains in H.
           cbn in H.
           destruct (Z.of_nat (List.length gs) =? hv_numGrains hv) eqn:En;
             cbn in H; inversion H; subst.
           apply Z.eqb_neq in En.
           split; [exact Hok |]. split; [reflexivity |].
           split; [intros Heq; apply En; symmetry; exact Heq |].
           split; reflexivity.
        -- right. left. inversion H; subst.
           split; [exact Hok |]. split; reflexivity.
      * exists table, hv. split; [reflexivity |]. left. exists k.
        unfold mbind at 1 in H. rewrite Hrun in H. inversion H; subst.
        split; [exact Hk |]. split; [exact Hok |]. split; [exact Hraise | reflexivity].
    + left. inversion H; subst. split; reflexivity.
  - left. rewrite parse_absent in H by (unfold isfile; rewrite Efs; reflexivity).
    inversion H; subst. repeat split.
Qed.

End Failure.

Lemma failed_parse_keeps_stores_witness :
  exists self',
    Grains.parse Fixture.read_table (Fixture.disk "g.csv" Fixture.no_beam_center)
      "g.csv" Grains.init = (self', Raise ValueError)
    /\ exists hv, hv_numGrains hv = 1 /\ self' = stored_upto 1 hv Grains.init.
Proof.
  exists (fst (Grains.parse Fixture.read_table
                 (Fixture.disk "g.csv" Fixture.no_beam_center) "g.csv" Grains.init)).
  assert (H : Grains.parse Fixture.read_table
                (Fixture.disk "g.csv" Fixture.no_beam_center) "g.csv" Grains.init
              = (fst (Grains.parse Fixture.read_table
                        (Fixture.disk "g.csv" Fixture.no_beam_center) "g.csv"
                        Grains.init), Raise ValueError))
    by (vm_compute; reflexivity).
  split; [exact H |].
  destruct (failed_parse_keeps_stores _ _ _ _ _ _ H)
    as [[Hfs _]
       | [content [Hfs [[Hrt _]
                       | [table [hv [_ [[k [_ [Hok [Hraise Hs]]]]
                                       | [[Hok _] | [gs [Hok _]]]]]]]]]]].
  - vm_compute in Hfs. discriminate Hfs.
  - vm_compute in Hfs. inversion Hfs; subst content.
    vm_compute in Hrt. discriminate Hrt.
  - vm_compute in Hfs. inversion Hfs; subst content.
    destruct k as [| [| k]].
    + vm_compute in Hraise. discriminate Hraise.
    + exists hv. split; [| exact Hs].
      unfold stages_ok in Hok. destruct Hok as [Hn _].
      specialize (Hn ltac:(lia)). vm_compute in Hn.
      injection Hn as Hv. symmetry. exact Hv.
    + unfold stages_ok in Hok. destruct Hok as [_ [Hb _]].
      specialize (Hb ltac:(lia)). vm_compute in Hb. discriminate Hb.
  - vm_compute in Hfs. inversion Hfs; subst content.
    unfold stages_ok in Hok. destruct Hok as [_ [Hb _]].
    specialize (Hb ltac:(lia)). vm_compute in Hb. discriminate Hb.
  - vm_compute in Hfs. inversion Hfs; subst content.
    unfold stages_ok in Hok. destruct Hok as [_ [Hb _]].
    specialize (Hb ltac:(lia)). vm_compute in Hb. discriminate Hb.
Defined.
